(** * PWB agent orchestration pipeline: router, action extractor, grounding
    critic and answer synthesis boundary.

    Shallow embedding of [src/agents/graph.py] and [src/agents/llm.py].

    A Python [str] is a sequence of Unicode code points and is modelled as a
    list of numbers.  The character classes [\s], [\d] and [\w] of [re], the
    flag [re.IGNORECASE], [str.strip], [str.lower] and [str.title] follow
    CPython on the whole code space; the character tables are those of
    Unicode 14.0.0, the version CPython 3.11 is built with. *)

From Stdlib Require Import NArith ZArith QArith Lia.
From Stdlib.Strings Require Import Byte.
From stdpp Require Import base option list gmap.

Set Default Proof Using "Type".
Local Open Scope N_scope.

(** ** Text *)

(** A character is its code point. *)
Definition char : Type := N.

Definition str : Type := list char.

(** String literals are read as UTF-8. *)
Module Utf8.

Inductive literal : Type :=
| LNil
| LCons (c : N) (rest : literal).

Definition is_continuation (b : N) : bool := (0x80 <=? b) && (b <? 0xC0).

(** [n] continuation bytes, each carrying six bits. *)
Fixpoint continuation (n : nat) (acc : N) (bs : list byte)
    : option (N * list byte) :=
  match n with
  | O => Some (acc, bs)
  | S n' =>
      match bs with
      | b :: bs' =>
          if is_continuation (Byte.to_N b)
          then continuation n' (acc * 64 + (Byte.to_N b - 0x80)) bs'
          else None
      | [] => None
      end
  end.

Fixpoint decode_from (fuel : nat) (bs : list byte) : option literal :=
  match bs, fuel with
  | [], _ => Some LNil
  | _ :: _, O => None
  | b :: bs', S fuel' =>
      let v := Byte.to_N b in
      let '(n, lead) :=
        if v <? 0x80 then (0%nat, Some v)
        else if v <? 0xC0 then (0%nat, None)
        else if v <? 0xE0 then (1%nat, Some (v - 0xC0))
        else if v <? 0xF0 then (2%nat, Some (v - 0xE0))
        else (3%nat, Some (v - 0xF0)) in
      acc ← lead;
      '(c, rest) ← continuation n acc bs';
      LCons c <$> decode_from fuel' rest
  end.

Definition decode (bs : list byte) : option literal :=
  decode_from (length bs) bs.

Definition byte_of (n : N) : byte := default x00 (Byte.of_N n).

Definition encode_char (c : N) : list byte :=
  if c <? 0x80 then [byte_of c]
  else if c <? 0x800 then
    [byte_of (0xC0 + c / 64); byte_of (0x80 + c mod 64)]
  else if c <? 0x10000 then
    [byte_of (0xE0 + c / 4096); byte_of (0x80 + (c / 64) mod 64);
     byte_of (0x80 + c mod 64)]
  else
    [byte_of (0xF0 + c / 262144); byte_of (0x80 + (c / 4096) mod 64);
     byte_of (0x80 + (c / 64) mod 64); byte_of (0x80 + c mod 64)].

Fixpoint encode (l : literal) : option (list byte) :=
  match l with
  | LNil => Some []
  | LCons c rest => (encode_char c ++.) <$> encode rest
  end.

End Utf8.

Declare Scope str_scope.
Delimit Scope str_scope with str.
Bind Scope str_scope with str.
#[warnings="-via-type-remapping,-via-type-mismatch"]
String Notation str Utf8.decode Utf8.encode
  (via Utf8.literal mapping [[nil] => Utf8.LNil, [cons] => Utf8.LCons])
  : str_scope.
Open Scope str_scope.

(** ** Characters *)

Module Chars.

(** The characters [str.isspace] accepts. *)
Definition space_ranges : list (N * N) :=
  [(9, 0xD); (0x1C, 0x20); (0x85, 0x85); (0xA0, 0xA0); (0x1680, 0x1680);
   (0x2000, 0x200A); (0x2028, 0x2029); (0x202F, 0x202F); (0x205F, 0x205F);
   (0x3000, 0x3000)].

(** The decimal digits (general category Nd). *)
Definition decimal_ranges : list (N * N) :=
  [(0x30, 0x39); (0x660, 0x669); (0x6F0, 0x6F9); (0x7C0, 0x7C9);
   (0x966, 0x96F); (0x9E6, 0x9EF); (0xA66, 0xA6F); (0xAE6, 0xAEF);
   (0xB66, 0xB6F); (0xBE6, 0xBEF); (0xC66, 0xC6F); (0xCE6, 0xCEF);
   (0xD66, 0xD6F); (0xDE6, 0xDEF); (0xE50, 0xE59); (0xED0, 0xED9);
   (0xF20, 0xF29); (0x1040, 0x1049); (0x1090, 0x1099); (0x17E0, 0x17E9);
   (0x1810, 0x1819); (0x1946, 0x194F); (0x19D0, 0x19D9); (0x1A80, 0x1A89);
   (0x1A90, 0x1A99); (0x1B50, 0x1B59); (0x1BB0, 0x1BB9); (0x1C40, 0x1C49);
   (0x1C50, 0x1C59); (0xA620, 0xA629); (0xA8D0, 0xA8D9); (0xA900, 0xA909);
   (0xA9D0, 0xA9D9); (0xA9F0, 0xA9F9); (0xAA50, 0xAA59); (0xABF0, 0xABF9);
   (0xFF10, 0xFF19); (0x104A0, 0x104A9); (0x10D30, 0x10D39);
   (0x11066, 0x1106F); (0x110F0, 0x110F9); (0x11136, 0x1113F);
   (0x111D0, 0x111D9); (0x112F0, 0x112F9); (0x11450, 0x11459);
   (0x114D0, 0x114D9); (0x11650, 0x11659); (0x116C0, 0x116C9);
   (0x11730, 0x11739); (0x118E0, 0x118E9); (0x11950, 0x11959);
   (0x11C50, 0x11C59); (0x11D50, 0x11D59); (0x11DA0, 0x11DA9);
   (0x16A60, 0x16A69); (0x16AC0, 0x16AC9); (0x16B50, 0x16B59);
   (0x1D7CE, 0x1D7FF); (0x1E140, 0x1E149); (0x1E2F0, 0x1E2F9);
   (0x1E950, 0x1E959); (0x1FBF0, 0x1FBF9)].

(** The characters [str.isalnum] accepts. *)
Definition alnum_runs : list (N * N * N) :=
  [(0x30, 0x39, 1); (0x41, 0x5A, 1); (0x61, 0x7A, 1); (0xAA, 0xAA, 1);
   (0xB2, 0xB3, 1); (0xB5, 0xB5, 1); (0xB9, 0xBA, 1); (0xBC, 0xBE, 1);
   (0xC0, 0xD6, 1); (0xD8, 0xF6, 1); (0xF8, 0x2C1, 1); (0x2C6, 0x2D1, 1);
   (0x2E0, 0x2E4, 1); (0x2EC, 0x2EE, 2); (0x370, 0x374, 1);
   (0x376, 0x377, 1); (0x37A, 0x37D, 1); (0x37F, 0x37F, 1);
   (0x386, 0x388, 2); (0x389, 0x38A, 1); (0x38C, 0x38E, 2);
   (0x38F, 0x3A1, 1); (0x3A3, 0x3F5, 1); (0x3F7, 0x481, 1);
   (0x48A, 0x52F, 1); (0x531, 0x556, 1); (0x559, 0x559, 1);
   (0x560, 0x588, 1); (0x5D0, 0x5EA, 1); (0x5EF, 0x5F2, 1);
   (0x620, 0x64A, 1); (0x660, 0x669, 1); (0x66E, 0x66F, 1);
   (0x671, 0x6D3, 1); (0x6D5, 0x6D5, 1); (0x6E5, 0x6E6, 1);
   (0x6EE, 0x6FC, 1); (0x6FF, 0x6FF, 1); (0x710, 0x712, 2);
   (0x713, 0x72F, 1); (0x74D, 0x7A5, 1); (0x7B1, 0x7B1, 1);
   (0x7C0, 0x7EA, 1); (0x7F4, 0x7F5, 1); (0x7FA, 0x7FA, 1);
   (0x800, 0x815, 1); (0x81A, 0x81A, 1); (0x824, 0x824, 1);
   (0x828, 0x828, 1); (0x840, 0x858, 1); (0x860, 0x86A, 1);
   (0x870, 0x887, 1); (0x889, 0x88E, 1); (0x8A0, 0x8C9, 1);
   (0x904, 0x939, 1); (0x93D, 0x93D, 1); (0x950, 0x950, 1);
   (0x958, 0x961, 1); (0x966, 0x96F, 1); (0x971, 0x980, 1);
   (0x985, 0x98C, 1); (0x98F, 0x990, 1); (0x993, 0x9A8, 1);
   (0x9AA, 0x9B0, 1); (0x9B2, 0x9B2, 1); (0x9B6, 0x9B9, 1);
   (0x9BD, 0x9BD, 1); (0x9CE, 0x9CE, 1); (0x9DC, 0x9DD, 1);
   (0x9DF, 0x9E1, 1); (0x9E6, 0x9F1, 1); (0x9F4, 0x9F9, 1);
   (0x9FC, 0x9FC, 1); (0xA05, 0xA0A, 1); (0xA0F, 0xA10, 1);
   (0xA13, 0xA28, 1); (0xA2A, 0xA30, 1); (0xA32, 0xA33, 1);
   (0xA35, 0xA36, 1); (0xA38, 0xA39, 1); (0xA59, 0xA5C, 1);
   (0xA5E, 0xA5E, 1); (0xA66, 0xA6F, 1); (0xA72, 0xA74, 1);
   (0xA85, 0xA8D, 1); (0xA8F, 0xA91, 1); (0xA93, 0xAA8, 1);
   (0xAAA, 0xAB0, 1); (0xAB2, 0xAB3, 1); (0xAB5, 0xAB9, 1);
   (0xABD, 0xABD, 1); (0xAD0, 0xAD0, 1); (0xAE0, 0xAE1, 1);
   (0xAE6, 0xAEF, 1); (0xAF9, 0xAF9, 1); (0xB05, 0xB0C, 1);
   (0xB0F, 0xB10, 1); (0xB13, 0xB28, 1); (0xB2A, 0xB30, 1);
   (0xB32, 0xB33, 1); (0xB35, 0xB39, 1); (0xB3D, 0xB3D, 1);
   (0xB5C, 0xB5D, 1); (0xB5F, 0xB61, 1); (0xB66, 0xB6F, 1);
   (0xB71, 0xB77, 1); (0xB83, 0xB85, 2); (0xB86, 0xB8A, 1);
   (0xB8E, 0xB90, 1); (0xB92, 0xB95, 1); (0xB99, 0xB9A, 1);
   (0xB9C, 0xB9E, 2); (0xB9F, 0xB9F, 1); (0xBA3, 0xBA4, 1);
   (0xBA8, 0xBAA, 1); (0xBAE, 0xBB9, 1); (0xBD0, 0xBD0, 1);
   (0xBE6, 0xBF2, 1); (0xC05, 0xC0C, 1); (0xC0E, 0xC10, 1);
   (0xC12, 0xC28, 1); (0xC2A, 0xC39, 1); (0xC3D, 0xC3D, 1);
   (0xC58, 0xC5A, 1); (0xC5D, 0xC5D, 1); (0xC60, 0xC61, 1);
   (0xC66, 0xC6F, 1); (0xC78, 0xC7E, 1); (0xC80, 0xC80, 1);
   (0xC85, 0xC8C, 1); (0xC8E, 0xC90, 1); (0xC92, 0xCA8, 1);
   (0xCAA, 0xCB3, 1); (0xCB5, 0xCB9, 1); (0xCBD, 0xCBD, 1);
   (0xCDD, 0xCDE, 1); (0xCE0, 0xCE1, 1); (0xCE6, 0xCEF, 1);
   (0xCF1, 0xCF2, 1); (0xD04, 0xD0C, 1); (0xD0E, 0xD10, 1);
   (0xD12, 0xD3A, 1); (0xD3D, 0xD3D, 1); (0xD4E, 0xD4E, 1);
   (0xD54, 0xD56, 1); (0xD58, 0xD61, 1); (0xD66, 0xD78, 1);
   (0xD7A, 0xD7F, 1); (0xD85, 0xD96, 1); (0xD9A, 0xDB1, 1);
   (0xDB3, 0xDBB, 1); (0xDBD, 0xDBD, 1); (0xDC0, 0xDC6, 1);
   (0xDE6, 0xDEF, 1); (0xE01, 0xE30, 1); (0xE32, 0xE33, 1);
   (0xE40, 0xE46, 1); (0xE50, 0xE59, 1); (0xE81, 0xE82, 1);
   (0xE84, 0xE86, 2); (0xE87, 0xE8A, 1); (0xE8C, 0xEA3, 1);
   (0xEA5, 0xEA7, 2); (0xEA8, 0xEB0, 1); (0xEB2, 0xEB3, 1);
   (0xEBD, 0xEBD, 1); (0xEC0, 0xEC4, 1); (0xEC6, 0xEC6, 1);
   (0xED0, 0xED9, 1); (0xEDC, 0xEDF, 1); (0xF00, 0xF00, 1);
   (0xF20, 0xF33, 1); (0xF40, 0xF47, 1); (0xF49, 0xF6C, 1);
   (0xF88, 0xF8C, 1); (0x1000, 0x102A, 1); (0x103F, 0x1049, 1);
   (0x1050, 0x1055, 1); (0x105A, 0x105D, 1); (0x1061, 0x1061, 1);
   (0x1065, 0x1066, 1); (0x106E, 0x1070, 1); (0x1075, 0x1081, 1);
   (0x108E, 0x1090, 2); (0x1091, 0x1099, 1); (0x10A0, 0x10C5, 1);
   (0x10C7, 0x10C7, 1); (0x10CD, 0x10CD, 1); (0x10D0, 0x10FA, 1);
   (0x10FC, 0x1248, 1); (0x124A, 0x124D, 1); (0x1250, 0x1256, 1);
   (0x1258, 0x125A, 2); (0x125B, 0x125D, 1); (0x1260, 0x1288, 1);
   (0x128A, 0x128D, 1); (0x1290, 0x12B0, 1); (0x12B2, 0x12B5, 1);
   (0x12B8, 0x12BE, 1); (0x12C0, 0x12C2, 2); (0x12C3, 0x12C5, 1);
   (0x12C8, 0x12D6, 1); (0x12D8, 0x1310, 1); (0x1312, 0x1315, 1);
   (0x1318, 0x135A, 1); (0x1369, 0x137C, 1); (0x1380, 0x138F, 1);
   (0x13A0, 0x13F5, 1); (0x13F8, 0x13FD, 1); (0x1401, 0x166C, 1);
   (0x166F, 0x167F, 1); (0x1681, 0x169A, 1); (0x16A0, 0x16EA, 1);
   (0x16EE, 0x16F8, 1); (0x1700, 0x1711, 1); (0x171F, 0x1731, 1);
   (0x1740, 0x1751, 1); (0x1760, 0x176C, 1); (0x176E, 0x1770, 1);
   (0x1780, 0x17B3, 1); (0x17D7, 0x17D7, 1); (0x17DC, 0x17DC, 1);
   (0x17E0, 0x17E9, 1); (0x17F0, 0x17F9, 1); (0x1810, 0x1819, 1);
   (0x1820, 0x1878, 1); (0x1880, 0x1884, 1); (0x1887, 0x18A8, 1);
   (0x18AA, 0x18AA, 1); (0x18B0, 0x18F5, 1); (0x1900, 0x191E, 1);
   (0x1946, 0x196D, 1); (0x1970, 0x1974, 1); (0x1980, 0x19AB, 1);
   (0x19B0, 0x19C9, 1); (0x19D0, 0x19DA, 1); (0x1A00, 0x1A16, 1);
   (0x1A20, 0x1A54, 1); (0x1A80, 0x1A89, 1); (0x1A90, 0x1A99, 1);
   (0x1AA7, 0x1AA7, 1); (0x1B05, 0x1B33, 1); (0x1B45, 0x1B4C, 1);
   (0x1B50, 0x1B59, 1); (0x1B83, 0x1BA0, 1); (0x1BAE, 0x1BE5, 1);
   (0x1C00, 0x1C23, 1); (0x1C40, 0x1C49, 1); (0x1C4D, 0x1C7D, 1);
   (0x1C80, 0x1C88, 1); (0x1C90, 0x1CBA, 1); (0x1CBD, 0x1CBF, 1);
   (0x1CE9, 0x1CEC, 1); (0x1CEE, 0x1CF3, 1); (0x1CF5, 0x1CF6, 1);
   (0x1CFA, 0x1CFA, 1); (0x1D00, 0x1DBF, 1); (0x1E00, 0x1F15, 1);
   (0x1F18, 0x1F1D, 1); (0x1F20, 0x1F45, 1); (0x1F48, 0x1F4D, 1);
   (0x1F50, 0x1F57, 1); (0x1F59, 0x1F5F, 2); (0x1F60, 0x1F7D, 1);
   (0x1F80, 0x1FB4, 1); (0x1FB6, 0x1FBC, 1); (0x1FBE, 0x1FBE, 1);
   (0x1FC2, 0x1FC4, 1); (0x1FC6, 0x1FCC, 1); (0x1FD0, 0x1FD3, 1);
   (0x1FD6, 0x1FDB, 1); (0x1FE0, 0x1FEC, 1); (0x1FF2, 0x1FF4, 1);
   (0x1FF6, 0x1FFC, 1); (0x2070, 0x2071, 1); (0x2074, 0x2079, 1);
   (0x207F, 0x2089, 1); (0x2090, 0x209C, 1); (0x2102, 0x2102, 1);
   (0x2107, 0x2107, 1); (0x210A, 0x2113, 1); (0x2115, 0x2115, 1);
   (0x2119, 0x211D, 1); (0x2124, 0x212A, 2); (0x212B, 0x212D, 1);
   (0x212F, 0x2139, 1); (0x213C, 0x213F, 1); (0x2145, 0x2149, 1);
   (0x214E, 0x2150, 2); (0x2151, 0x2189, 1); (0x2460, 0x249B, 1);
   (0x24EA, 0x24FF, 1); (0x2776, 0x2793, 1); (0x2C00, 0x2CE4, 1);
   (0x2CEB, 0x2CEE, 1); (0x2CF2, 0x2CF3, 1); (0x2CFD, 0x2CFD, 1);
   (0x2D00, 0x2D25, 1); (0x2D27, 0x2D27, 1); (0x2D2D, 0x2D2D, 1);
   (0x2D30, 0x2D67, 1); (0x2D6F, 0x2D6F, 1); (0x2D80, 0x2D96, 1);
   (0x2DA0, 0x2DA6, 1); (0x2DA8, 0x2DAE, 1); (0x2DB0, 0x2DB6, 1);
   (0x2DB8, 0x2DBE, 1); (0x2DC0, 0x2DC6, 1); (0x2DC8, 0x2DCE, 1);
   (0x2DD0, 0x2DD6, 1); (0x2DD8, 0x2DDE, 1); (0x2E2F, 0x2E2F, 1);
   (0x3005, 0x3007, 1); (0x3021, 0x3029, 1); (0x3031, 0x3035, 1);
   (0x3038, 0x303C, 1); (0x3041, 0x3096, 1); (0x309D, 0x309F, 1);
   (0x30A1, 0x30FA, 1); (0x30FC, 0x30FF, 1); (0x3105, 0x312F, 1);
   (0x3131, 0x318E, 1); (0x3192, 0x3195, 1); (0x31A0, 0x31BF, 1);
   (0x31F0, 0x31FF, 1); (0x3220, 0x3229, 1); (0x3248, 0x324F, 1);
   (0x3251, 0x325F, 1); (0x3280, 0x3289, 1); (0x32B1, 0x32BF, 1);
   (0x3400, 0x4DBF, 1); (0x4E00, 0xA48C, 1); (0xA4D0, 0xA4FD, 1);
   (0xA500, 0xA60C, 1); (0xA610, 0xA62B, 1); (0xA640, 0xA66E, 1);
   (0xA67F, 0xA69D, 1); (0xA6A0, 0xA6EF, 1); (0xA717, 0xA71F, 1);
   (0xA722, 0xA788, 1); (0xA78B, 0xA7CA, 1); (0xA7D0, 0xA7D1, 1);
   (0xA7D3, 0xA7D5, 2); (0xA7D6, 0xA7D9, 1); (0xA7F2, 0xA801, 1);
   (0xA803, 0xA805, 1); (0xA807, 0xA80A, 1); (0xA80C, 0xA822, 1);
   (0xA830, 0xA835, 1); (0xA840, 0xA873, 1); (0xA882, 0xA8B3, 1);
   (0xA8D0, 0xA8D9, 1); (0xA8F2, 0xA8F7, 1); (0xA8FB, 0xA8FD, 2);
   (0xA8FE, 0xA900, 2); (0xA901, 0xA925, 1); (0xA930, 0xA946, 1);
   (0xA960, 0xA97C, 1); (0xA984, 0xA9B2, 1); (0xA9CF, 0xA9D9, 1);
   (0xA9E0, 0xA9E4, 1); (0xA9E6, 0xA9FE, 1); (0xAA00, 0xAA28, 1);
   (0xAA40, 0xAA42, 1); (0xAA44, 0xAA4B, 1); (0xAA50, 0xAA59, 1);
   (0xAA60, 0xAA76, 1); (0xAA7A, 0xAA7A, 1); (0xAA7E, 0xAAAF, 1);
   (0xAAB1, 0xAAB1, 1); (0xAAB5, 0xAAB6, 1); (0xAAB9, 0xAABD, 1);
   (0xAAC0, 0xAAC2, 2); (0xAADB, 0xAADD, 1); (0xAAE0, 0xAAEA, 1);
   (0xAAF2, 0xAAF4, 1); (0xAB01, 0xAB06, 1); (0xAB09, 0xAB0E, 1);
   (0xAB11, 0xAB16, 1); (0xAB20, 0xAB26, 1); (0xAB28, 0xAB2E, 1);
   (0xAB30, 0xAB5A, 1); (0xAB5C, 0xAB69, 1); (0xAB70, 0xABE2, 1);
   (0xABF0, 0xABF9, 1); (0xAC00, 0xD7A3, 1); (0xD7B0, 0xD7C6, 1);
   (0xD7CB, 0xD7FB, 1); (0xF900, 0xFA6D, 1); (0xFA70, 0xFAD9, 1);
   (0xFB00, 0xFB06, 1); (0xFB13, 0xFB17, 1); (0xFB1D, 0xFB1F, 2);
   (0xFB20, 0xFB28, 1); (0xFB2A, 0xFB36, 1); (0xFB38, 0xFB3C, 1);
   (0xFB3E, 0xFB40, 2); (0xFB41, 0xFB43, 2); (0xFB44, 0xFB46, 2);
   (0xFB47, 0xFBB1, 1); (0xFBD3, 0xFD3D, 1); (0xFD50, 0xFD8F, 1);
   (0xFD92, 0xFDC7, 1); (0xFDF0, 0xFDFB, 1); (0xFE70, 0xFE74, 1);
   (0xFE76, 0xFEFC, 1); (0xFF10, 0xFF19, 1); (0xFF21, 0xFF3A, 1);
   (0xFF41, 0xFF5A, 1); (0xFF66, 0xFFBE, 1); (0xFFC2, 0xFFC7, 1);
   (0xFFCA, 0xFFCF, 1); (0xFFD2, 0xFFD7, 1); (0xFFDA, 0xFFDC, 1);
   (0x10000, 0x1000B, 1); (0x1000D, 0x10026, 1); (0x10028, 0x1003A, 1);
   (0x1003C, 0x1003D, 1); (0x1003F, 0x1004D, 1); (0x10050, 0x1005D, 1);
   (0x10080, 0x100FA, 1); (0x10107, 0x10133, 1); (0x10140, 0x10178, 1);
   (0x1018A, 0x1018B, 1); (0x10280, 0x1029C, 1); (0x102A0, 0x102D0, 1);
   (0x102E1, 0x102FB, 1); (0x10300, 0x10323, 1); (0x1032D, 0x1034A, 1);
   (0x10350, 0x10375, 1); (0x10380, 0x1039D, 1); (0x103A0, 0x103C3, 1);
   (0x103C8, 0x103CF, 1); (0x103D1, 0x103D5, 1); (0x10400, 0x1049D, 1);
   (0x104A0, 0x104A9, 1); (0x104B0, 0x104D3, 1); (0x104D8, 0x104FB, 1);
   (0x10500, 0x10527, 1); (0x10530, 0x10563, 1); (0x10570, 0x1057A, 1);
   (0x1057C, 0x1058A, 1); (0x1058C, 0x10592, 1); (0x10594, 0x10595, 1);
   (0x10597, 0x105A1, 1); (0x105A3, 0x105B1, 1); (0x105B3, 0x105B9, 1);
   (0x105BB, 0x105BC, 1); (0x10600, 0x10736, 1); (0x10740, 0x10755, 1);
   (0x10760, 0x10767, 1); (0x10780, 0x10785, 1); (0x10787, 0x107B0, 1);
   (0x107B2, 0x107BA, 1); (0x10800, 0x10805, 1); (0x10808, 0x1080A, 2);
   (0x1080B, 0x10835, 1); (0x10837, 0x10838, 1); (0x1083C, 0x1083C, 1);
   (0x1083F, 0x10855, 1); (0x10858, 0x10876, 1); (0x10879, 0x1089E, 1);
   (0x108A7, 0x108AF, 1); (0x108E0, 0x108F2, 1); (0x108F4, 0x108F5, 1);
   (0x108FB, 0x1091B, 1); (0x10920, 0x10939, 1); (0x10980, 0x109B7, 1);
   (0x109BC, 0x109CF, 1); (0x109D2, 0x10A00, 1); (0x10A10, 0x10A13, 1);
   (0x10A15, 0x10A17, 1); (0x10A19, 0x10A35, 1); (0x10A40, 0x10A48, 1);
   (0x10A60, 0x10A7E, 1); (0x10A80, 0x10A9F, 1); (0x10AC0, 0x10AC7, 1);
   (0x10AC9, 0x10AE4, 1); (0x10AEB, 0x10AEF, 1); (0x10B00, 0x10B35, 1);
   (0x10B40, 0x10B55, 1); (0x10B58, 0x10B72, 1); (0x10B78, 0x10B91, 1);
   (0x10BA9, 0x10BAF, 1); (0x10C00, 0x10C48, 1); (0x10C80, 0x10CB2, 1);
   (0x10CC0, 0x10CF2, 1); (0x10CFA, 0x10D23, 1); (0x10D30, 0x10D39, 1);
   (0x10E60, 0x10E7E, 1); (0x10E80, 0x10EA9, 1); (0x10EB0, 0x10EB1, 1);
   (0x10F00, 0x10F27, 1); (0x10F30, 0x10F45, 1); (0x10F51, 0x10F54, 1);
   (0x10F70, 0x10F81, 1); (0x10FB0, 0x10FCB, 1); (0x10FE0, 0x10FF6, 1);
   (0x11003, 0x11037, 1); (0x11052, 0x1106F, 1); (0x11071, 0x11072, 1);
   (0x11075, 0x11075, 1); (0x11083, 0x110AF, 1); (0x110D0, 0x110E8, 1);
   (0x110F0, 0x110F9, 1); (0x11103, 0x11126, 1); (0x11136, 0x1113F, 1);
   (0x11144, 0x11144, 1); (0x11147, 0x11147, 1); (0x11150, 0x11172, 1);
   (0x11176, 0x11176, 1); (0x11183, 0x111B2, 1); (0x111C1, 0x111C4, 1);
   (0x111D0, 0x111DA, 1); (0x111DC, 0x111DC, 1); (0x111E1, 0x111F4, 1);
   (0x11200, 0x11211, 1); (0x11213, 0x1122B, 1); (0x11280, 0x11286, 1);
   (0x11288, 0x1128A, 2); (0x1128B, 0x1128D, 1); (0x1128F, 0x1129D, 1);
   (0x1129F, 0x112A8, 1); (0x112B0, 0x112DE, 1); (0x112F0, 0x112F9, 1);
   (0x11305, 0x1130C, 1); (0x1130F, 0x11310, 1); (0x11313, 0x11328, 1);
   (0x1132A, 0x11330, 1); (0x11332, 0x11333, 1); (0x11335, 0x11339, 1);
   (0x1133D, 0x1133D, 1); (0x11350, 0x11350, 1); (0x1135D, 0x11361, 1);
   (0x11400, 0x11434, 1); (0x11447, 0x1144A, 1); (0x11450, 0x11459, 1);
   (0x1145F, 0x11461, 1); (0x11480, 0x114AF, 1); (0x114C4, 0x114C5, 1);
   (0x114C7, 0x114C7, 1); (0x114D0, 0x114D9, 1); (0x11580, 0x115AE, 1);
   (0x115D8, 0x115DB, 1); (0x11600, 0x1162F, 1); (0x11644, 0x11644, 1);
   (0x11650, 0x11659, 1); (0x11680, 0x116AA, 1); (0x116B8, 0x116B8, 1);
   (0x116C0, 0x116C9, 1); (0x11700, 0x1171A, 1); (0x11730, 0x1173B, 1);
   (0x11740, 0x11746, 1); (0x11800, 0x1182B, 1); (0x118A0, 0x118F2, 1);
   (0x118FF, 0x11906, 1); (0x11909, 0x11909, 1); (0x1190C, 0x11913, 1);
   (0x11915, 0x11916, 1); (0x11918, 0x1192F, 1); (0x1193F, 0x11941, 2);
   (0x11950, 0x11959, 1); (0x119A0, 0x119A7, 1); (0x119AA, 0x119D0, 1);
   (0x119E1, 0x119E3, 2); (0x11A00, 0x11A00, 1); (0x11A0B, 0x11A32, 1);
   (0x11A3A, 0x11A3A, 1); (0x11A50, 0x11A50, 1); (0x11A5C, 0x11A89, 1);
   (0x11A9D, 0x11A9D, 1); (0x11AB0, 0x11AF8, 1); (0x11C00, 0x11C08, 1);
   (0x11C0A, 0x11C2E, 1); (0x11C40, 0x11C40, 1); (0x11C50, 0x11C6C, 1);
   (0x11C72, 0x11C8F, 1); (0x11D00, 0x11D06, 1); (0x11D08, 0x11D09, 1);
   (0x11D0B, 0x11D30, 1); (0x11D46, 0x11D46, 1); (0x11D50, 0x11D59, 1);
   (0x11D60, 0x11D65, 1); (0x11D67, 0x11D68, 1); (0x11D6A, 0x11D89, 1);
   (0x11D98, 0x11D98, 1); (0x11DA0, 0x11DA9, 1); (0x11EE0, 0x11EF2, 1);
   (0x11FB0, 0x11FB0, 1); (0x11FC0, 0x11FD4, 1); (0x12000, 0x12399, 1);
   (0x12400, 0x1246E, 1); (0x12480, 0x12543, 1); (0x12F90, 0x12FF0, 1);
   (0x13000, 0x1342E, 1); (0x14400, 0x14646, 1); (0x16800, 0x16A38, 1);
   (0x16A40, 0x16A5E, 1); (0x16A60, 0x16A69, 1); (0x16A70, 0x16ABE, 1);
   (0x16AC0, 0x16AC9, 1); (0x16AD0, 0x16AED, 1); (0x16B00, 0x16B2F, 1);
   (0x16B40, 0x16B43, 1); (0x16B50, 0x16B59, 1); (0x16B5B, 0x16B61, 1);
   (0x16B63, 0x16B77, 1); (0x16B7D, 0x16B8F, 1); (0x16E40, 0x16E96, 1);
   (0x16F00, 0x16F4A, 1); (0x16F50, 0x16F50, 1); (0x16F93, 0x16F9F, 1);
   (0x16FE0, 0x16FE1, 1); (0x16FE3, 0x16FE3, 1); (0x17000, 0x187F7, 1);
   (0x18800, 0x18CD5, 1); (0x18D00, 0x18D08, 1); (0x1AFF0, 0x1AFF3, 1);
   (0x1AFF5, 0x1AFFB, 1); (0x1AFFD, 0x1AFFE, 1); (0x1B000, 0x1B122, 1);
   (0x1B150, 0x1B152, 1); (0x1B164, 0x1B167, 1); (0x1B170, 0x1B2FB, 1);
   (0x1BC00, 0x1BC6A, 1); (0x1BC70, 0x1BC7C, 1); (0x1BC80, 0x1BC88, 1);
   (0x1BC90, 0x1BC99, 1); (0x1D2E0, 0x1D2F3, 1); (0x1D360, 0x1D378, 1);
   (0x1D400, 0x1D454, 1); (0x1D456, 0x1D49C, 1); (0x1D49E, 0x1D49F, 1);
   (0x1D4A2, 0x1D4A2, 1); (0x1D4A5, 0x1D4A6, 1); (0x1D4A9, 0x1D4AC, 1);
   (0x1D4AE, 0x1D4B9, 1); (0x1D4BB, 0x1D4BD, 2); (0x1D4BE, 0x1D4C3, 1);
   (0x1D4C5, 0x1D505, 1); (0x1D507, 0x1D50A, 1); (0x1D50D, 0x1D514, 1);
   (0x1D516, 0x1D51C, 1); (0x1D51E, 0x1D539, 1); (0x1D53B, 0x1D53E, 1);
   (0x1D540, 0x1D544, 1); (0x1D546, 0x1D546, 1); (0x1D54A, 0x1D550, 1);
   (0x1D552, 0x1D6A5, 1); (0x1D6A8, 0x1D6C0, 1); (0x1D6C2, 0x1D6DA, 1);
   (0x1D6DC, 0x1D6FA, 1); (0x1D6FC, 0x1D714, 1); (0x1D716, 0x1D734, 1);
   (0x1D736, 0x1D74E, 1); (0x1D750, 0x1D76E, 1); (0x1D770, 0x1D788, 1);
   (0x1D78A, 0x1D7A8, 1); (0x1D7AA, 0x1D7C2, 1); (0x1D7C4, 0x1D7CB, 1);
   (0x1D7CE, 0x1D7FF, 1); (0x1DF00, 0x1DF1E, 1); (0x1E100, 0x1E12C, 1);
   (0x1E137, 0x1E13D, 1); (0x1E140, 0x1E149, 1); (0x1E14E, 0x1E14E, 1);
   (0x1E290, 0x1E2AD, 1); (0x1E2C0, 0x1E2EB, 1); (0x1E2F0, 0x1E2F9, 1);
   (0x1E7E0, 0x1E7E6, 1); (0x1E7E8, 0x1E7EB, 1); (0x1E7ED, 0x1E7EE, 1);
   (0x1E7F0, 0x1E7FE, 1); (0x1E800, 0x1E8C4, 1); (0x1E8C7, 0x1E8CF, 1);
   (0x1E900, 0x1E943, 1); (0x1E94B, 0x1E94B, 1); (0x1E950, 0x1E959, 1);
   (0x1EC71, 0x1ECAB, 1); (0x1ECAD, 0x1ECAF, 1); (0x1ECB1, 0x1ECB4, 1);
   (0x1ED01, 0x1ED2D, 1); (0x1ED2F, 0x1ED3D, 1); (0x1EE00, 0x1EE03, 1);
   (0x1EE05, 0x1EE1F, 1); (0x1EE21, 0x1EE22, 1); (0x1EE24, 0x1EE24, 1);
   (0x1EE27, 0x1EE29, 2); (0x1EE2A, 0x1EE32, 1); (0x1EE34, 0x1EE37, 1);
   (0x1EE39, 0x1EE3B, 2); (0x1EE42, 0x1EE42, 1); (0x1EE47, 0x1EE4D, 2);
   (0x1EE4E, 0x1EE4F, 1); (0x1EE51, 0x1EE52, 1); (0x1EE54, 0x1EE54, 1);
   (0x1EE57, 0x1EE61, 2); (0x1EE62, 0x1EE64, 2); (0x1EE67, 0x1EE6A, 1);
   (0x1EE6C, 0x1EE72, 1); (0x1EE74, 0x1EE77, 1); (0x1EE79, 0x1EE7C, 1);
   (0x1EE7E, 0x1EE80, 2); (0x1EE81, 0x1EE89, 1); (0x1EE8B, 0x1EE9B, 1);
   (0x1EEA1, 0x1EEA3, 1); (0x1EEA5, 0x1EEA9, 1); (0x1EEAB, 0x1EEBB, 1);
   (0x1F100, 0x1F10C, 1); (0x1FBF0, 0x1FBF9, 1); (0x20000, 0x2A6DF, 1);
   (0x2A700, 0x2B738, 1); (0x2B740, 0x2B81D, 1); (0x2B820, 0x2CEA1, 1);
   (0x2CEB0, 0x2EBE0, 1); (0x2F800, 0x2FA1D, 1); (0x30000, 0x3134A, 1)].

(** The characters with the property Cased. *)
Definition cased_runs : list (N * N * N) :=
  [(0x41, 0x5A, 1); (0x61, 0x7A, 1); (0xAA, 0xAA, 1); (0xB5, 0xB5, 1);
   (0xBA, 0xBA, 1); (0xC0, 0xD6, 1); (0xD8, 0xF6, 1); (0xF8, 0x1BA, 1);
   (0x1BC, 0x1BF, 1); (0x1C4, 0x293, 1); (0x295, 0x2B8, 1);
   (0x2C0, 0x2C1, 1); (0x2E0, 0x2E4, 1); (0x345, 0x345, 1);
   (0x370, 0x373, 1); (0x376, 0x377, 1); (0x37A, 0x37D, 1);
   (0x37F, 0x37F, 1); (0x386, 0x388, 2); (0x389, 0x38A, 1);
   (0x38C, 0x38E, 2); (0x38F, 0x3A1, 1); (0x3A3, 0x3F5, 1);
   (0x3F7, 0x481, 1); (0x48A, 0x52F, 1); (0x531, 0x556, 1);
   (0x560, 0x588, 1); (0x10A0, 0x10C5, 1); (0x10C7, 0x10C7, 1);
   (0x10CD, 0x10CD, 1); (0x10D0, 0x10FA, 1); (0x10FD, 0x10FF, 1);
   (0x13A0, 0x13F5, 1); (0x13F8, 0x13FD, 1); (0x1C80, 0x1C88, 1);
   (0x1C90, 0x1CBA, 1); (0x1CBD, 0x1CBF, 1); (0x1D00, 0x1DBF, 1);
   (0x1E00, 0x1F15, 1); (0x1F18, 0x1F1D, 1); (0x1F20, 0x1F45, 1);
   (0x1F48, 0x1F4D, 1); (0x1F50, 0x1F57, 1); (0x1F59, 0x1F5F, 2);
   (0x1F60, 0x1F7D, 1); (0x1F80, 0x1FB4, 1); (0x1FB6, 0x1FBC, 1);
   (0x1FBE, 0x1FBE, 1); (0x1FC2, 0x1FC4, 1); (0x1FC6, 0x1FCC, 1);
   (0x1FD0, 0x1FD3, 1); (0x1FD6, 0x1FDB, 1); (0x1FE0, 0x1FEC, 1);
   (0x1FF2, 0x1FF4, 1); (0x1FF6, 0x1FFC, 1); (0x2071, 0x2071, 1);
   (0x207F, 0x207F, 1); (0x2090, 0x209C, 1); (0x2102, 0x2102, 1);
   (0x2107, 0x2107, 1); (0x210A, 0x2113, 1); (0x2115, 0x2115, 1);
   (0x2119, 0x211D, 1); (0x2124, 0x212A, 2); (0x212B, 0x212D, 1);
   (0x212F, 0x2134, 1); (0x2139, 0x2139, 1); (0x213C, 0x213F, 1);
   (0x2145, 0x2149, 1); (0x214E, 0x214E, 1); (0x2160, 0x217F, 1);
   (0x2183, 0x2184, 1); (0x24B6, 0x24E9, 1); (0x2C00, 0x2CE4, 1);
   (0x2CEB, 0x2CEE, 1); (0x2CF2, 0x2CF3, 1); (0x2D00, 0x2D25, 1);
   (0x2D27, 0x2D27, 1); (0x2D2D, 0x2D2D, 1); (0xA640, 0xA66D, 1);
   (0xA680, 0xA69D, 1); (0xA722, 0xA787, 1); (0xA78B, 0xA78E, 1);
   (0xA790, 0xA7CA, 1); (0xA7D0, 0xA7D1, 1); (0xA7D3, 0xA7D5, 2);
   (0xA7D6, 0xA7D9, 1); (0xA7F5, 0xA7F6, 1); (0xA7F8, 0xA7FA, 1);
   (0xAB30, 0xAB5A, 1); (0xAB5C, 0xAB68, 1); (0xAB70, 0xABBF, 1);
   (0xFB00, 0xFB06, 1); (0xFB13, 0xFB17, 1); (0xFF21, 0xFF3A, 1);
   (0xFF41, 0xFF5A, 1); (0x10400, 0x1044F, 1); (0x104B0, 0x104D3, 1);
   (0x104D8, 0x104FB, 1); (0x10570, 0x1057A, 1); (0x1057C, 0x1058A, 1);
   (0x1058C, 0x10592, 1); (0x10594, 0x10595, 1); (0x10597, 0x105A1, 1);
   (0x105A3, 0x105B1, 1); (0x105B3, 0x105B9, 1); (0x105BB, 0x105BC, 1);
   (0x10780, 0x10780, 1); (0x10783, 0x10785, 1); (0x10787, 0x107B0, 1);
   (0x107B2, 0x107BA, 1); (0x10C80, 0x10CB2, 1); (0x10CC0, 0x10CF2, 1);
   (0x118A0, 0x118DF, 1); (0x16E40, 0x16E7F, 1); (0x1D400, 0x1D454, 1);
   (0x1D456, 0x1D49C, 1); (0x1D49E, 0x1D49F, 1); (0x1D4A2, 0x1D4A2, 1);
   (0x1D4A5, 0x1D4A6, 1); (0x1D4A9, 0x1D4AC, 1); (0x1D4AE, 0x1D4B9, 1);
   (0x1D4BB, 0x1D4BD, 2); (0x1D4BE, 0x1D4C3, 1); (0x1D4C5, 0x1D505, 1);
   (0x1D507, 0x1D50A, 1); (0x1D50D, 0x1D514, 1); (0x1D516, 0x1D51C, 1);
   (0x1D51E, 0x1D539, 1); (0x1D53B, 0x1D53E, 1); (0x1D540, 0x1D544, 1);
   (0x1D546, 0x1D546, 1); (0x1D54A, 0x1D550, 1); (0x1D552, 0x1D6A5, 1);
   (0x1D6A8, 0x1D6C0, 1); (0x1D6C2, 0x1D6DA, 1); (0x1D6DC, 0x1D6FA, 1);
   (0x1D6FC, 0x1D714, 1); (0x1D716, 0x1D734, 1); (0x1D736, 0x1D74E, 1);
   (0x1D750, 0x1D76E, 1); (0x1D770, 0x1D788, 1); (0x1D78A, 0x1D7A8, 1);
   (0x1D7AA, 0x1D7C2, 1); (0x1D7C4, 0x1D7CB, 1); (0x1DF00, 0x1DF09, 1);
   (0x1DF0B, 0x1DF1E, 1); (0x1E900, 0x1E943, 1); (0x1F130, 0x1F149, 1);
   (0x1F150, 0x1F169, 1); (0x1F170, 0x1F189, 1)].

(** The characters with the property Case_Ignorable. *)
Definition case_ignorable_runs : list (N * N * N) :=
  [(0x27, 0x27, 1); (0x2E, 0x2E, 1); (0x3A, 0x3A, 1); (0x5E, 0x60, 2);
   (0xA8, 0xA8, 1); (0xAD, 0xAF, 2); (0xB4, 0xB4, 1); (0xB7, 0xB8, 1);
   (0x2B0, 0x36F, 1); (0x374, 0x375, 1); (0x37A, 0x37A, 1);
   (0x384, 0x385, 1); (0x387, 0x387, 1); (0x483, 0x489, 1);
   (0x559, 0x559, 1); (0x55F, 0x55F, 1); (0x591, 0x5BD, 1);
   (0x5BF, 0x5C1, 2); (0x5C2, 0x5C4, 2); (0x5C5, 0x5C7, 2);
   (0x5F4, 0x5F4, 1); (0x600, 0x605, 1); (0x610, 0x61A, 1);
   (0x61C, 0x61C, 1); (0x640, 0x640, 1); (0x64B, 0x65F, 1);
   (0x670, 0x670, 1); (0x6D6, 0x6DD, 1); (0x6DF, 0x6E8, 1);
   (0x6EA, 0x6ED, 1); (0x70F, 0x711, 2); (0x730, 0x74A, 1);
   (0x7A6, 0x7B0, 1); (0x7EB, 0x7F5, 1); (0x7FA, 0x7FA, 1);
   (0x7FD, 0x7FD, 1); (0x816, 0x82D, 1); (0x859, 0x85B, 1);
   (0x888, 0x888, 1); (0x890, 0x891, 1); (0x898, 0x89F, 1);
   (0x8C9, 0x902, 1); (0x93A, 0x93C, 2); (0x941, 0x948, 1);
   (0x94D, 0x94D, 1); (0x951, 0x957, 1); (0x962, 0x963, 1);
   (0x971, 0x971, 1); (0x981, 0x981, 1); (0x9BC, 0x9BC, 1);
   (0x9C1, 0x9C4, 1); (0x9CD, 0x9CD, 1); (0x9E2, 0x9E3, 1);
   (0x9FE, 0x9FE, 1); (0xA01, 0xA02, 1); (0xA3C, 0xA3C, 1);
   (0xA41, 0xA42, 1); (0xA47, 0xA48, 1); (0xA4B, 0xA4D, 1);
   (0xA51, 0xA51, 1); (0xA70, 0xA71, 1); (0xA75, 0xA75, 1);
   (0xA81, 0xA82, 1); (0xABC, 0xABC, 1); (0xAC1, 0xAC5, 1);
   (0xAC7, 0xAC8, 1); (0xACD, 0xACD, 1); (0xAE2, 0xAE3, 1);
   (0xAFA, 0xAFF, 1); (0xB01, 0xB01, 1); (0xB3C, 0xB3C, 1);
   (0xB3F, 0xB41, 2); (0xB42, 0xB44, 1); (0xB4D, 0xB4D, 1);
   (0xB55, 0xB56, 1); (0xB62, 0xB63, 1); (0xB82, 0xB82, 1);
   (0xBC0, 0xBC0, 1); (0xBCD, 0xBCD, 1); (0xC00, 0xC00, 1);
   (0xC04, 0xC04, 1); (0xC3C, 0xC3E, 2); (0xC3F, 0xC40, 1);
   (0xC46, 0xC48, 1); (0xC4A, 0xC4D, 1); (0xC55, 0xC56, 1);
   (0xC62, 0xC63, 1); (0xC81, 0xC81, 1); (0xCBC, 0xCBC, 1);
   (0xCBF, 0xCBF, 1); (0xCC6, 0xCC6, 1); (0xCCC, 0xCCD, 1);
   (0xCE2, 0xCE3, 1); (0xD00, 0xD01, 1); (0xD3B, 0xD3C, 1);
   (0xD41, 0xD44, 1); (0xD4D, 0xD4D, 1); (0xD62, 0xD63, 1);
   (0xD81, 0xD81, 1); (0xDCA, 0xDCA, 1); (0xDD2, 0xDD4, 1);
   (0xDD6, 0xDD6, 1); (0xE31, 0xE31, 1); (0xE34, 0xE3A, 1);
   (0xE46, 0xE4E, 1); (0xEB1, 0xEB1, 1); (0xEB4, 0xEBC, 1);
   (0xEC6, 0xEC8, 2); (0xEC9, 0xECD, 1); (0xF18, 0xF19, 1);
   (0xF35, 0xF39, 2); (0xF71, 0xF7E, 1); (0xF80, 0xF84, 1);
   (0xF86, 0xF87, 1); (0xF8D, 0xF97, 1); (0xF99, 0xFBC, 1);
   (0xFC6, 0xFC6, 1); (0x102D, 0x1030, 1); (0x1032, 0x1037, 1);
   (0x1039, 0x103A, 1); (0x103D, 0x103E, 1); (0x1058, 0x1059, 1);
   (0x105E, 0x1060, 1); (0x1071, 0x1074, 1); (0x1082, 0x1082, 1);
   (0x1085, 0x1086, 1); (0x108D, 0x108D, 1); (0x109D, 0x109D, 1);
   (0x10FC, 0x10FC, 1); (0x135D, 0x135F, 1); (0x1712, 0x1714, 1);
   (0x1732, 0x1733, 1); (0x1752, 0x1753, 1); (0x1772, 0x1773, 1);
   (0x17B4, 0x17B5, 1); (0x17B7, 0x17BD, 1); (0x17C6, 0x17C6, 1);
   (0x17C9, 0x17D3, 1); (0x17D7, 0x17D7, 1); (0x17DD, 0x17DD, 1);
   (0x180B, 0x180F, 1); (0x1843, 0x1843, 1); (0x1885, 0x1886, 1);
   (0x18A9, 0x18A9, 1); (0x1920, 0x1922, 1); (0x1927, 0x1928, 1);
   (0x1932, 0x1932, 1); (0x1939, 0x193B, 1); (0x1A17, 0x1A18, 1);
   (0x1A1B, 0x1A1B, 1); (0x1A56, 0x1A58, 2); (0x1A59, 0x1A5E, 1);
   (0x1A60, 0x1A62, 2); (0x1A65, 0x1A6C, 1); (0x1A73, 0x1A7C, 1);
   (0x1A7F, 0x1A7F, 1); (0x1AA7, 0x1AA7, 1); (0x1AB0, 0x1ACE, 1);
   (0x1B00, 0x1B03, 1); (0x1B34, 0x1B36, 2); (0x1B37, 0x1B3A, 1);
   (0x1B3C, 0x1B3C, 1); (0x1B42, 0x1B42, 1); (0x1B6B, 0x1B73, 1);
   (0x1B80, 0x1B81, 1); (0x1BA2, 0x1BA5, 1); (0x1BA8, 0x1BA9, 1);
   (0x1BAB, 0x1BAD, 1); (0x1BE6, 0x1BE8, 2); (0x1BE9, 0x1BE9, 1);
   (0x1BED, 0x1BEF, 2); (0x1BF0, 0x1BF1, 1); (0x1C2C, 0x1C33, 1);
   (0x1C36, 0x1C37, 1); (0x1C78, 0x1C7D, 1); (0x1CD0, 0x1CD2, 1);
   (0x1CD4, 0x1CE0, 1); (0x1CE2, 0x1CE8, 1); (0x1CED, 0x1CED, 1);
   (0x1CF4, 0x1CF4, 1); (0x1CF8, 0x1CF9, 1); (0x1D2C, 0x1D6A, 1);
   (0x1D78, 0x1D78, 1); (0x1D9B, 0x1DFF, 1); (0x1FBD, 0x1FBF, 2);
   (0x1FC0, 0x1FC1, 1); (0x1FCD, 0x1FCF, 1); (0x1FDD, 0x1FDF, 1);
   (0x1FED, 0x1FEF, 1); (0x1FFD, 0x1FFE, 1); (0x200B, 0x200F, 1);
   (0x2018, 0x2019, 1); (0x2024, 0x2024, 1); (0x2027, 0x2027, 1);
   (0x202A, 0x202E, 1); (0x2060, 0x2064, 1); (0x2066, 0x206F, 1);
   (0x2071, 0x2071, 1); (0x207F, 0x207F, 1); (0x2090, 0x209C, 1);
   (0x20D0, 0x20F0, 1); (0x2C7C, 0x2C7D, 1); (0x2CEF, 0x2CF1, 1);
   (0x2D6F, 0x2D6F, 1); (0x2D7F, 0x2D7F, 1); (0x2DE0, 0x2DFF, 1);
   (0x2E2F, 0x2E2F, 1); (0x3005, 0x3005, 1); (0x302A, 0x302D, 1);
   (0x3031, 0x3035, 1); (0x303B, 0x303B, 1); (0x3099, 0x309E, 1);
   (0x30FC, 0x30FE, 1); (0xA015, 0xA015, 1); (0xA4F8, 0xA4FD, 1);
   (0xA60C, 0xA60C, 1); (0xA66F, 0xA672, 1); (0xA674, 0xA67D, 1);
   (0xA67F, 0xA67F, 1); (0xA69C, 0xA69F, 1); (0xA6F0, 0xA6F1, 1);
   (0xA700, 0xA721, 1); (0xA770, 0xA770, 1); (0xA788, 0xA78A, 1);
   (0xA7F2, 0xA7F4, 1); (0xA7F8, 0xA7F9, 1); (0xA802, 0xA802, 1);
   (0xA806, 0xA806, 1); (0xA80B, 0xA80B, 1); (0xA825, 0xA826, 1);
   (0xA82C, 0xA82C, 1); (0xA8C4, 0xA8C5, 1); (0xA8E0, 0xA8F1, 1);
   (0xA8FF, 0xA8FF, 1); (0xA926, 0xA92D, 1); (0xA947, 0xA951, 1);
   (0xA980, 0xA982, 1); (0xA9B3, 0xA9B3, 1); (0xA9B6, 0xA9B9, 1);
   (0xA9BC, 0xA9BD, 1); (0xA9CF, 0xA9CF, 1); (0xA9E5, 0xA9E6, 1);
   (0xAA29, 0xAA2E, 1); (0xAA31, 0xAA32, 1); (0xAA35, 0xAA36, 1);
   (0xAA43, 0xAA43, 1); (0xAA4C, 0xAA4C, 1); (0xAA70, 0xAA70, 1);
   (0xAA7C, 0xAA7C, 1); (0xAAB0, 0xAAB2, 2); (0xAAB3, 0xAAB4, 1);
   (0xAAB7, 0xAAB8, 1); (0xAABE, 0xAABF, 1); (0xAAC1, 0xAAC1, 1);
   (0xAADD, 0xAADD, 1); (0xAAEC, 0xAAED, 1); (0xAAF3, 0xAAF4, 1);
   (0xAAF6, 0xAAF6, 1); (0xAB5B, 0xAB5F, 1); (0xAB69, 0xAB6B, 1);
   (0xABE5, 0xABE5, 1); (0xABE8, 0xABE8, 1); (0xABED, 0xABED, 1);
   (0xFB1E, 0xFB1E, 1); (0xFBB2, 0xFBC2, 1); (0xFE00, 0xFE0F, 1);
   (0xFE13, 0xFE13, 1); (0xFE20, 0xFE2F, 1); (0xFE52, 0xFE52, 1);
   (0xFE55, 0xFE55, 1); (0xFEFF, 0xFEFF, 1); (0xFF07, 0xFF07, 1);
   (0xFF0E, 0xFF0E, 1); (0xFF1A, 0xFF1A, 1); (0xFF3E, 0xFF40, 2);
   (0xFF70, 0xFF70, 1); (0xFF9E, 0xFF9F, 1); (0xFFE3, 0xFFE3, 1);
   (0xFFF9, 0xFFFB, 1); (0x101FD, 0x101FD, 1); (0x102E0, 0x102E0, 1);
   (0x10376, 0x1037A, 1); (0x10780, 0x10785, 1); (0x10787, 0x107B0, 1);
   (0x107B2, 0x107BA, 1); (0x10A01, 0x10A03, 1); (0x10A05, 0x10A06, 1);
   (0x10A0C, 0x10A0F, 1); (0x10A38, 0x10A3A, 1); (0x10A3F, 0x10A3F, 1);
   (0x10AE5, 0x10AE6, 1); (0x10D24, 0x10D27, 1); (0x10EAB, 0x10EAC, 1);
   (0x10F46, 0x10F50, 1); (0x10F82, 0x10F85, 1); (0x11001, 0x11001, 1);
   (0x11038, 0x11046, 1); (0x11070, 0x11070, 1); (0x11073, 0x11074, 1);
   (0x1107F, 0x11081, 1); (0x110B3, 0x110B6, 1); (0x110B9, 0x110BA, 1);
   (0x110BD, 0x110BD, 1); (0x110C2, 0x110C2, 1); (0x110CD, 0x110CD, 1);
   (0x11100, 0x11102, 1); (0x11127, 0x1112B, 1); (0x1112D, 0x11134, 1);
   (0x11173, 0x11173, 1); (0x11180, 0x11181, 1); (0x111B6, 0x111BE, 1);
   (0x111C9, 0x111CC, 1); (0x111CF, 0x111CF, 1); (0x1122F, 0x11231, 1);
   (0x11234, 0x11236, 2); (0x11237, 0x11237, 1); (0x1123E, 0x1123E, 1);
   (0x112DF, 0x112DF, 1); (0x112E3, 0x112EA, 1); (0x11300, 0x11301, 1);
   (0x1133B, 0x1133C, 1); (0x11340, 0x11340, 1); (0x11366, 0x1136C, 1);
   (0x11370, 0x11374, 1); (0x11438, 0x1143F, 1); (0x11442, 0x11444, 1);
   (0x11446, 0x11446, 1); (0x1145E, 0x1145E, 1); (0x114B3, 0x114B8, 1);
   (0x114BA, 0x114BA, 1); (0x114BF, 0x114C0, 1); (0x114C2, 0x114C3, 1);
   (0x115B2, 0x115B5, 1); (0x115BC, 0x115BD, 1); (0x115BF, 0x115C0, 1);
   (0x115DC, 0x115DD, 1); (0x11633, 0x1163A, 1); (0x1163D, 0x1163F, 2);
   (0x11640, 0x11640, 1); (0x116AB, 0x116AD, 2); (0x116B0, 0x116B5, 1);
   (0x116B7, 0x116B7, 1); (0x1171D, 0x1171F, 1); (0x11722, 0x11725, 1);
   (0x11727, 0x1172B, 1); (0x1182F, 0x11837, 1); (0x11839, 0x1183A, 1);
   (0x1193B, 0x1193C, 1); (0x1193E, 0x1193E, 1); (0x11943, 0x11943, 1);
   (0x119D4, 0x119D7, 1); (0x119DA, 0x119DB, 1); (0x119E0, 0x119E0, 1);
   (0x11A01, 0x11A0A, 1); (0x11A33, 0x11A38, 1); (0x11A3B, 0x11A3E, 1);
   (0x11A47, 0x11A47, 1); (0x11A51, 0x11A56, 1); (0x11A59, 0x11A5B, 1);
   (0x11A8A, 0x11A96, 1); (0x11A98, 0x11A99, 1); (0x11C30, 0x11C36, 1);
   (0x11C38, 0x11C3D, 1); (0x11C3F, 0x11C3F, 1); (0x11C92, 0x11CA7, 1);
   (0x11CAA, 0x11CB0, 1); (0x11CB2, 0x11CB3, 1); (0x11CB5, 0x11CB6, 1);
   (0x11D31, 0x11D36, 1); (0x11D3A, 0x11D3C, 2); (0x11D3D, 0x11D3F, 2);
   (0x11D40, 0x11D45, 1); (0x11D47, 0x11D47, 1); (0x11D90, 0x11D91, 1);
   (0x11D95, 0x11D97, 2); (0x11EF3, 0x11EF4, 1); (0x13430, 0x13438, 1);
   (0x16AF0, 0x16AF4, 1); (0x16B30, 0x16B36, 1); (0x16B40, 0x16B43, 1);
   (0x16F4F, 0x16F4F, 1); (0x16F8F, 0x16F9F, 1); (0x16FE0, 0x16FE1, 1);
   (0x16FE3, 0x16FE4, 1); (0x1AFF0, 0x1AFF3, 1); (0x1AFF5, 0x1AFFB, 1);
   (0x1AFFD, 0x1AFFE, 1); (0x1BC9D, 0x1BC9E, 1); (0x1BCA0, 0x1BCA3, 1);
   (0x1CF00, 0x1CF2D, 1); (0x1CF30, 0x1CF46, 1); (0x1D167, 0x1D169, 1);
   (0x1D173, 0x1D182, 1); (0x1D185, 0x1D18B, 1); (0x1D1AA, 0x1D1AD, 1);
   (0x1D242, 0x1D244, 1); (0x1DA00, 0x1DA36, 1); (0x1DA3B, 0x1DA6C, 1);
   (0x1DA75, 0x1DA75, 1); (0x1DA84, 0x1DA84, 1); (0x1DA9B, 0x1DA9F, 1);
   (0x1DAA1, 0x1DAAF, 1); (0x1E000, 0x1E006, 1); (0x1E008, 0x1E018, 1);
   (0x1E01B, 0x1E021, 1); (0x1E023, 0x1E024, 1); (0x1E026, 0x1E02A, 1);
   (0x1E130, 0x1E13D, 1); (0x1E2AE, 0x1E2AE, 1); (0x1E2EC, 0x1E2EF, 1);
   (0x1E8D0, 0x1E8D6, 1); (0x1E944, 0x1E94B, 1); (0x1F3FB, 0x1F3FF, 1);
   (0xE0001, 0xE0001, 1); (0xE0020, 0xE007F, 1); (0xE0100, 0xE01EF, 1)].

(** The simple lower-case mapping. *)
Definition lower_runs : list (N * N * N * N) :=
  [(0x41, 0x5A, 1, 0x61); (0xC0, 0xD6, 1, 0xE0); (0xD8, 0xDE, 1, 0xF8);
   (0x100, 0x12E, 2, 0x101); (0x130, 0x130, 1, 0x69);
   (0x132, 0x136, 2, 0x133); (0x139, 0x147, 2, 0x13A);
   (0x14A, 0x176, 2, 0x14B); (0x178, 0x178, 1, 0xFF);
   (0x179, 0x17D, 2, 0x17A); (0x181, 0x181, 1, 0x253);
   (0x182, 0x184, 2, 0x183); (0x186, 0x186, 1, 0x254);
   (0x187, 0x187, 1, 0x188); (0x189, 0x18A, 1, 0x256);
   (0x18B, 0x18B, 1, 0x18C); (0x18E, 0x18E, 1, 0x1DD);
   (0x18F, 0x18F, 1, 0x259); (0x190, 0x190, 1, 0x25B);
   (0x191, 0x191, 1, 0x192); (0x193, 0x193, 1, 0x260);
   (0x194, 0x194, 1, 0x263); (0x196, 0x196, 1, 0x269);
   (0x197, 0x197, 1, 0x268); (0x198, 0x198, 1, 0x199);
   (0x19C, 0x19C, 1, 0x26F); (0x19D, 0x19D, 1, 0x272);
   (0x19F, 0x19F, 1, 0x275); (0x1A0, 0x1A4, 2, 0x1A1);
   (0x1A6, 0x1A6, 1, 0x280); (0x1A7, 0x1A7, 1, 0x1A8);
   (0x1A9, 0x1A9, 1, 0x283); (0x1AC, 0x1AC, 1, 0x1AD);
   (0x1AE, 0x1AE, 1, 0x288); (0x1AF, 0x1AF, 1, 0x1B0);
   (0x1B1, 0x1B2, 1, 0x28A); (0x1B3, 0x1B5, 2, 0x1B4);
   (0x1B7, 0x1B7, 1, 0x292); (0x1B8, 0x1B8, 1, 0x1B9);
   (0x1BC, 0x1BC, 1, 0x1BD); (0x1C4, 0x1C4, 1, 0x1C6);
   (0x1C5, 0x1C5, 1, 0x1C6); (0x1C7, 0x1C7, 1, 0x1C9);
   (0x1C8, 0x1C8, 1, 0x1C9); (0x1CA, 0x1CA, 1, 0x1CC);
   (0x1CB, 0x1DB, 2, 0x1CC); (0x1DE, 0x1EE, 2, 0x1DF);
   (0x1F1, 0x1F1, 1, 0x1F3); (0x1F2, 0x1F4, 2, 0x1F3);
   (0x1F6, 0x1F6, 1, 0x195); (0x1F7, 0x1F7, 1, 0x1BF);
   (0x1F8, 0x21E, 2, 0x1F9); (0x220, 0x220, 1, 0x19E);
   (0x222, 0x232, 2, 0x223); (0x23A, 0x23A, 1, 0x2C65);
   (0x23B, 0x23B, 1, 0x23C); (0x23D, 0x23D, 1, 0x19A);
   (0x23E, 0x23E, 1, 0x2C66); (0x241, 0x241, 1, 0x242);
   (0x243, 0x243, 1, 0x180); (0x244, 0x244, 1, 0x289);
   (0x245, 0x245, 1, 0x28C); (0x246, 0x24E, 2, 0x247);
   (0x370, 0x372, 2, 0x371); (0x376, 0x376, 1, 0x377);
   (0x37F, 0x37F, 1, 0x3F3); (0x386, 0x386, 1, 0x3AC);
   (0x388, 0x38A, 1, 0x3AD); (0x38C, 0x38C, 1, 0x3CC);
   (0x38E, 0x38F, 1, 0x3CD); (0x391, 0x3A1, 1, 0x3B1);
   (0x3A3, 0x3AB, 1, 0x3C3); (0x3CF, 0x3CF, 1, 0x3D7);
   (0x3D8, 0x3EE, 2, 0x3D9); (0x3F4, 0x3F4, 1, 0x3B8);
   (0x3F7, 0x3F7, 1, 0x3F8); (0x3F9, 0x3F9, 1, 0x3F2);
   (0x3FA, 0x3FA, 1, 0x3FB); (0x3FD, 0x3FF, 1, 0x37B);
   (0x400, 0x40F, 1, 0x450); (0x410, 0x42F, 1, 0x430);
   (0x460, 0x480, 2, 0x461); (0x48A, 0x4BE, 2, 0x48B);
   (0x4C0, 0x4C0, 1, 0x4CF); (0x4C1, 0x4CD, 2, 0x4C2);
   (0x4D0, 0x52E, 2, 0x4D1); (0x531, 0x556, 1, 0x561);
   (0x10A0, 0x10C5, 1, 0x2D00); (0x10C7, 0x10C7, 1, 0x2D27);
   (0x10CD, 0x10CD, 1, 0x2D2D); (0x13A0, 0x13EF, 1, 0xAB70);
   (0x13F0, 0x13F5, 1, 0x13F8); (0x1C90, 0x1CBA, 1, 0x10D0);
   (0x1CBD, 0x1CBF, 1, 0x10FD); (0x1E00, 0x1E94, 2, 0x1E01);
   (0x1E9E, 0x1E9E, 1, 0xDF); (0x1EA0, 0x1EFE, 2, 0x1EA1);
   (0x1F08, 0x1F0F, 1, 0x1F00); (0x1F18, 0x1F1D, 1, 0x1F10);
   (0x1F28, 0x1F2F, 1, 0x1F20); (0x1F38, 0x1F3F, 1, 0x1F30);
   (0x1F48, 0x1F4D, 1, 0x1F40); (0x1F59, 0x1F5F, 2, 0x1F51);
   (0x1F68, 0x1F6F, 1, 0x1F60); (0x1F88, 0x1F8F, 1, 0x1F80);
   (0x1F98, 0x1F9F, 1, 0x1F90); (0x1FA8, 0x1FAF, 1, 0x1FA0);
   (0x1FB8, 0x1FB9, 1, 0x1FB0); (0x1FBA, 0x1FBB, 1, 0x1F70);
   (0x1FBC, 0x1FBC, 1, 0x1FB3); (0x1FC8, 0x1FCB, 1, 0x1F72);
   (0x1FCC, 0x1FCC, 1, 0x1FC3); (0x1FD8, 0x1FD9, 1, 0x1FD0);
   (0x1FDA, 0x1FDB, 1, 0x1F76); (0x1FE8, 0x1FE9, 1, 0x1FE0);
   (0x1FEA, 0x1FEB, 1, 0x1F7A); (0x1FEC, 0x1FEC, 1, 0x1FE5);
   (0x1FF8, 0x1FF9, 1, 0x1F78); (0x1FFA, 0x1FFB, 1, 0x1F7C);
   (0x1FFC, 0x1FFC, 1, 0x1FF3); (0x2126, 0x2126, 1, 0x3C9);
   (0x212A, 0x212A, 1, 0x6B); (0x212B, 0x212B, 1, 0xE5);
   (0x2132, 0x2132, 1, 0x214E); (0x2160, 0x216F, 1, 0x2170);
   (0x2183, 0x2183, 1, 0x2184); (0x24B6, 0x24CF, 1, 0x24D0);
   (0x2C00, 0x2C2F, 1, 0x2C30); (0x2C60, 0x2C60, 1, 0x2C61);
   (0x2C62, 0x2C62, 1, 0x26B); (0x2C63, 0x2C63, 1, 0x1D7D);
   (0x2C64, 0x2C64, 1, 0x27D); (0x2C67, 0x2C6B, 2, 0x2C68);
   (0x2C6D, 0x2C6D, 1, 0x251); (0x2C6E, 0x2C6E, 1, 0x271);
   (0x2C6F, 0x2C6F, 1, 0x250); (0x2C70, 0x2C70, 1, 0x252);
   (0x2C72, 0x2C72, 1, 0x2C73); (0x2C75, 0x2C75, 1, 0x2C76);
   (0x2C7E, 0x2C7F, 1, 0x23F); (0x2C80, 0x2CE2, 2, 0x2C81);
   (0x2CEB, 0x2CED, 2, 0x2CEC); (0x2CF2, 0x2CF2, 1, 0x2CF3);
   (0xA640, 0xA66C, 2, 0xA641); (0xA680, 0xA69A, 2, 0xA681);
   (0xA722, 0xA72E, 2, 0xA723); (0xA732, 0xA76E, 2, 0xA733);
   (0xA779, 0xA77B, 2, 0xA77A); (0xA77D, 0xA77D, 1, 0x1D79);
   (0xA77E, 0xA786, 2, 0xA77F); (0xA78B, 0xA78B, 1, 0xA78C);
   (0xA78D, 0xA78D, 1, 0x265); (0xA790, 0xA792, 2, 0xA791);
   (0xA796, 0xA7A8, 2, 0xA797); (0xA7AA, 0xA7AA, 1, 0x266);
   (0xA7AB, 0xA7AB, 1, 0x25C); (0xA7AC, 0xA7AC, 1, 0x261);
   (0xA7AD, 0xA7AD, 1, 0x26C); (0xA7AE, 0xA7AE, 1, 0x26A);
   (0xA7B0, 0xA7B0, 1, 0x29E); (0xA7B1, 0xA7B1, 1, 0x287);
   (0xA7B2, 0xA7B2, 1, 0x29D); (0xA7B3, 0xA7B3, 1, 0xAB53);
   (0xA7B4, 0xA7C2, 2, 0xA7B5); (0xA7C4, 0xA7C4, 1, 0xA794);
   (0xA7C5, 0xA7C5, 1, 0x282); (0xA7C6, 0xA7C6, 1, 0x1D8E);
   (0xA7C7, 0xA7C9, 2, 0xA7C8); (0xA7D0, 0xA7D0, 1, 0xA7D1);
   (0xA7D6, 0xA7D8, 2, 0xA7D7); (0xA7F5, 0xA7F5, 1, 0xA7F6);
   (0xFF21, 0xFF3A, 1, 0xFF41); (0x10400, 0x10427, 1, 0x10428);
   (0x104B0, 0x104D3, 1, 0x104D8); (0x10570, 0x1057A, 1, 0x10597);
   (0x1057C, 0x1058A, 1, 0x105A3); (0x1058C, 0x10592, 1, 0x105B3);
   (0x10594, 0x10595, 1, 0x105BB); (0x10C80, 0x10CB2, 1, 0x10CC0);
   (0x118A0, 0x118BF, 1, 0x118C0); (0x16E40, 0x16E5F, 1, 0x16E60);
   (0x1E900, 0x1E921, 1, 0x1E922)].

(** The title-case mapping, where it is one character. *)
Definition title_runs : list (N * N * N * N) :=
  [(0x61, 0x7A, 1, 0x41); (0xB5, 0xB5, 1, 0x39C); (0xE0, 0xF6, 1, 0xC0);
   (0xF8, 0xFE, 1, 0xD8); (0xFF, 0xFF, 1, 0x178); (0x101, 0x12F, 2, 0x100);
   (0x131, 0x131, 1, 0x49); (0x133, 0x137, 2, 0x132);
   (0x13A, 0x148, 2, 0x139); (0x14B, 0x177, 2, 0x14A);
   (0x17A, 0x17E, 2, 0x179); (0x17F, 0x17F, 1, 0x53);
   (0x180, 0x180, 1, 0x243); (0x183, 0x185, 2, 0x182);
   (0x188, 0x188, 1, 0x187); (0x18C, 0x18C, 1, 0x18B);
   (0x192, 0x192, 1, 0x191); (0x195, 0x195, 1, 0x1F6);
   (0x199, 0x199, 1, 0x198); (0x19A, 0x19A, 1, 0x23D);
   (0x19E, 0x19E, 1, 0x220); (0x1A1, 0x1A5, 2, 0x1A0);
   (0x1A8, 0x1A8, 1, 0x1A7); (0x1AD, 0x1AD, 1, 0x1AC);
   (0x1B0, 0x1B0, 1, 0x1AF); (0x1B4, 0x1B6, 2, 0x1B3);
   (0x1B9, 0x1B9, 1, 0x1B8); (0x1BD, 0x1BD, 1, 0x1BC);
   (0x1BF, 0x1BF, 1, 0x1F7); (0x1C4, 0x1C4, 1, 0x1C5);
   (0x1C6, 0x1C6, 1, 0x1C5); (0x1C7, 0x1C7, 1, 0x1C8);
   (0x1C9, 0x1C9, 1, 0x1C8); (0x1CA, 0x1CA, 1, 0x1CB);
   (0x1CC, 0x1DC, 2, 0x1CB); (0x1DD, 0x1DD, 1, 0x18E);
   (0x1DF, 0x1EF, 2, 0x1DE); (0x1F1, 0x1F1, 1, 0x1F2);
   (0x1F3, 0x1F5, 2, 0x1F2); (0x1F9, 0x21F, 2, 0x1F8);
   (0x223, 0x233, 2, 0x222); (0x23C, 0x23C, 1, 0x23B);
   (0x23F, 0x240, 1, 0x2C7E); (0x242, 0x242, 1, 0x241);
   (0x247, 0x24F, 2, 0x246); (0x250, 0x250, 1, 0x2C6F);
   (0x251, 0x251, 1, 0x2C6D); (0x252, 0x252, 1, 0x2C70);
   (0x253, 0x253, 1, 0x181); (0x254, 0x254, 1, 0x186);
   (0x256, 0x257, 1, 0x189); (0x259, 0x259, 1, 0x18F);
   (0x25B, 0x25B, 1, 0x190); (0x25C, 0x25C, 1, 0xA7AB);
   (0x260, 0x260, 1, 0x193); (0x261, 0x261, 1, 0xA7AC);
   (0x263, 0x263, 1, 0x194); (0x265, 0x265, 1, 0xA78D);
   (0x266, 0x266, 1, 0xA7AA); (0x268, 0x268, 1, 0x197);
   (0x269, 0x269, 1, 0x196); (0x26A, 0x26A, 1, 0xA7AE);
   (0x26B, 0x26B, 1, 0x2C62); (0x26C, 0x26C, 1, 0xA7AD);
   (0x26F, 0x26F, 1, 0x19C); (0x271, 0x271, 1, 0x2C6E);
   (0x272, 0x272, 1, 0x19D); (0x275, 0x275, 1, 0x19F);
   (0x27D, 0x27D, 1, 0x2C64); (0x280, 0x280, 1, 0x1A6);
   (0x282, 0x282, 1, 0xA7C5); (0x283, 0x283, 1, 0x1A9);
   (0x287, 0x287, 1, 0xA7B1); (0x288, 0x288, 1, 0x1AE);
   (0x289, 0x289, 1, 0x244); (0x28A, 0x28B, 1, 0x1B1);
   (0x28C, 0x28C, 1, 0x245); (0x292, 0x292, 1, 0x1B7);
   (0x29D, 0x29D, 1, 0xA7B2); (0x29E, 0x29E, 1, 0xA7B0);
   (0x345, 0x345, 1, 0x399); (0x371, 0x373, 2, 0x370);
   (0x377, 0x377, 1, 0x376); (0x37B, 0x37D, 1, 0x3FD);
   (0x3AC, 0x3AC, 1, 0x386); (0x3AD, 0x3AF, 1, 0x388);
   (0x3B1, 0x3C1, 1, 0x391); (0x3C2, 0x3C2, 1, 0x3A3);
   (0x3C3, 0x3CB, 1, 0x3A3); (0x3CC, 0x3CC, 1, 0x38C);
   (0x3CD, 0x3CE, 1, 0x38E); (0x3D0, 0x3D0, 1, 0x392);
   (0x3D1, 0x3D1, 1, 0x398); (0x3D5, 0x3D5, 1, 0x3A6);
   (0x3D6, 0x3D6, 1, 0x3A0); (0x3D7, 0x3D7, 1, 0x3CF);
   (0x3D9, 0x3EF, 2, 0x3D8); (0x3F0, 0x3F0, 1, 0x39A);
   (0x3F1, 0x3F1, 1, 0x3A1); (0x3F2, 0x3F2, 1, 0x3F9);
   (0x3F3, 0x3F3, 1, 0x37F); (0x3F5, 0x3F5, 1, 0x395);
   (0x3F8, 0x3F8, 1, 0x3F7); (0x3FB, 0x3FB, 1, 0x3FA);
   (0x430, 0x44F, 1, 0x410); (0x450, 0x45F, 1, 0x400);
   (0x461, 0x481, 2, 0x460); (0x48B, 0x4BF, 2, 0x48A);
   (0x4C2, 0x4CE, 2, 0x4C1); (0x4CF, 0x4CF, 1, 0x4C0);
   (0x4D1, 0x52F, 2, 0x4D0); (0x561, 0x586, 1, 0x531);
   (0x13F8, 0x13FD, 1, 0x13F0); (0x1C80, 0x1C80, 1, 0x412);
   (0x1C81, 0x1C81, 1, 0x414); (0x1C82, 0x1C82, 1, 0x41E);
   (0x1C83, 0x1C84, 1, 0x421); (0x1C85, 0x1C85, 1, 0x422);
   (0x1C86, 0x1C86, 1, 0x42A); (0x1C87, 0x1C87, 1, 0x462);
   (0x1C88, 0x1C88, 1, 0xA64A); (0x1D79, 0x1D79, 1, 0xA77D);
   (0x1D7D, 0x1D7D, 1, 0x2C63); (0x1D8E, 0x1D8E, 1, 0xA7C6);
   (0x1E01, 0x1E95, 2, 0x1E00); (0x1E9B, 0x1E9B, 1, 0x1E60);
   (0x1EA1, 0x1EFF, 2, 0x1EA0); (0x1F00, 0x1F07, 1, 0x1F08);
   (0x1F10, 0x1F15, 1, 0x1F18); (0x1F20, 0x1F27, 1, 0x1F28);
   (0x1F30, 0x1F37, 1, 0x1F38); (0x1F40, 0x1F45, 1, 0x1F48);
   (0x1F51, 0x1F57, 2, 0x1F59); (0x1F60, 0x1F67, 1, 0x1F68);
   (0x1F70, 0x1F71, 1, 0x1FBA); (0x1F72, 0x1F75, 1, 0x1FC8);
   (0x1F76, 0x1F77, 1, 0x1FDA); (0x1F78, 0x1F79, 1, 0x1FF8);
   (0x1F7A, 0x1F7B, 1, 0x1FEA); (0x1F7C, 0x1F7D, 1, 0x1FFA);
   (0x1F80, 0x1F87, 1, 0x1F88); (0x1F90, 0x1F97, 1, 0x1F98);
   (0x1FA0, 0x1FA7, 1, 0x1FA8); (0x1FB0, 0x1FB1, 1, 0x1FB8);
   (0x1FB3, 0x1FB3, 1, 0x1FBC); (0x1FBE, 0x1FBE, 1, 0x399);
   (0x1FC3, 0x1FC3, 1, 0x1FCC); (0x1FD0, 0x1FD1, 1, 0x1FD8);
   (0x1FE0, 0x1FE1, 1, 0x1FE8); (0x1FE5, 0x1FE5, 1, 0x1FEC);
   (0x1FF3, 0x1FF3, 1, 0x1FFC); (0x214E, 0x214E, 1, 0x2132);
   (0x2170, 0x217F, 1, 0x2160); (0x2184, 0x2184, 1, 0x2183);
   (0x24D0, 0x24E9, 1, 0x24B6); (0x2C30, 0x2C5F, 1, 0x2C00);
   (0x2C61, 0x2C61, 1, 0x2C60); (0x2C65, 0x2C65, 1, 0x23A);
   (0x2C66, 0x2C66, 1, 0x23E); (0x2C68, 0x2C6C, 2, 0x2C67);
   (0x2C73, 0x2C73, 1, 0x2C72); (0x2C76, 0x2C76, 1, 0x2C75);
   (0x2C81, 0x2CE3, 2, 0x2C80); (0x2CEC, 0x2CEE, 2, 0x2CEB);
   (0x2CF3, 0x2CF3, 1, 0x2CF2); (0x2D00, 0x2D25, 1, 0x10A0);
   (0x2D27, 0x2D27, 1, 0x10C7); (0x2D2D, 0x2D2D, 1, 0x10CD);
   (0xA641, 0xA66D, 2, 0xA640); (0xA681, 0xA69B, 2, 0xA680);
   (0xA723, 0xA72F, 2, 0xA722); (0xA733, 0xA76F, 2, 0xA732);
   (0xA77A, 0xA77C, 2, 0xA779); (0xA77F, 0xA787, 2, 0xA77E);
   (0xA78C, 0xA78C, 1, 0xA78B); (0xA791, 0xA793, 2, 0xA790);
   (0xA794, 0xA794, 1, 0xA7C4); (0xA797, 0xA7A9, 2, 0xA796);
   (0xA7B5, 0xA7C3, 2, 0xA7B4); (0xA7C8, 0xA7CA, 2, 0xA7C7);
   (0xA7D1, 0xA7D1, 1, 0xA7D0); (0xA7D7, 0xA7D9, 2, 0xA7D6);
   (0xA7F6, 0xA7F6, 1, 0xA7F5); (0xAB53, 0xAB53, 1, 0xA7B3);
   (0xAB70, 0xABBF, 1, 0x13A0); (0xFF41, 0xFF5A, 1, 0xFF21);
   (0x10428, 0x1044F, 1, 0x10400); (0x104D8, 0x104FB, 1, 0x104B0);
   (0x10597, 0x105A1, 1, 0x10570); (0x105A3, 0x105B1, 1, 0x1057C);
   (0x105B3, 0x105B9, 1, 0x1058C); (0x105BB, 0x105BC, 1, 0x10594);
   (0x10CC0, 0x10CF2, 1, 0x10C80); (0x118C0, 0x118DF, 1, 0x118A0);
   (0x16E60, 0x16E7F, 1, 0x16E40); (0x1E922, 0x1E943, 1, 0x1E900)].

(** The title-case mapping, where it is several characters. *)
Definition title_special : list (N * list N) :=
  [(0xDF, [0x53; 0x73]); (0x149, [0x2BC; 0x4E]); (0x1F0, [0x4A; 0x30C]);
   (0x390, [0x399; 0x308; 0x301]); (0x3B0, [0x3A5; 0x308; 0x301]);
   (0x587, [0x535; 0x582]); (0x1E96, [0x48; 0x331]); (0x1E97, [0x54; 0x308]);
   (0x1E98, [0x57; 0x30A]); (0x1E99, [0x59; 0x30A]); (0x1E9A, [0x41; 0x2BE]);
   (0x1F50, [0x3A5; 0x313]); (0x1F52, [0x3A5; 0x313; 0x300]);
   (0x1F54, [0x3A5; 0x313; 0x301]); (0x1F56, [0x3A5; 0x313; 0x342]);
   (0x1FB2, [0x1FBA; 0x345]); (0x1FB4, [0x386; 0x345]);
   (0x1FB6, [0x391; 0x342]); (0x1FB7, [0x391; 0x342; 0x345]);
   (0x1FC2, [0x1FCA; 0x345]); (0x1FC4, [0x389; 0x345]);
   (0x1FC6, [0x397; 0x342]); (0x1FC7, [0x397; 0x342; 0x345]);
   (0x1FD2, [0x399; 0x308; 0x300]); (0x1FD3, [0x399; 0x308; 0x301]);
   (0x1FD6, [0x399; 0x342]); (0x1FD7, [0x399; 0x308; 0x342]);
   (0x1FE2, [0x3A5; 0x308; 0x300]); (0x1FE3, [0x3A5; 0x308; 0x301]);
   (0x1FE4, [0x3A1; 0x313]); (0x1FE6, [0x3A5; 0x342]);
   (0x1FE7, [0x3A5; 0x308; 0x342]); (0x1FF2, [0x1FFA; 0x345]);
   (0x1FF4, [0x38F; 0x345]); (0x1FF6, [0x3A9; 0x342]);
   (0x1FF7, [0x3A9; 0x342; 0x345]); (0xFB00, [0x46; 0x66]);
   (0xFB01, [0x46; 0x69]); (0xFB02, [0x46; 0x6C]);
   (0xFB03, [0x46; 0x66; 0x69]); (0xFB04, [0x46; 0x66; 0x6C]);
   (0xFB05, [0x53; 0x74]); (0xFB06, [0x53; 0x74]); (0xFB13, [0x544; 0x576]);
   (0xFB14, [0x544; 0x565]); (0xFB15, [0x544; 0x56B]);
   (0xFB16, [0x54E; 0x576]); (0xFB17, [0x544; 0x56D])].

Definition in_ranges (ranges : list (N * N)) (c : char) : bool :=
  existsb (λ '(lo, hi), (lo <=? c) && (c <=? hi)) ranges.

(** A run [(lo, hi, step)] holds [lo], [lo + step], ... up to [hi]. *)
Definition in_run (lo hi step : N) (c : char) : bool :=
  (lo <=? c) && (c <=? hi) && ((c - lo) mod step =? 0).

Definition in_runs (runs : list (N * N * N)) (c : char) : bool :=
  existsb (λ '(lo, hi, step), in_run lo hi step c) runs.

(** A run [(lo, hi, step, target)] of a mapping sends its first character to
    [target] and the others as far from it as they are from [lo]. *)
Fixpoint lookup_runs (runs : list (N * N * N * N)) (c : char) : option char :=
  match runs with
  | [] => None
  | (lo, hi, step, target) :: runs' =>
      if in_run lo hi step c then Some (target + (c - lo))
      else lookup_runs runs' c
  end.

(** [str.isspace], the class [\s]. *)
Definition is_space (c : char) : bool := in_ranges space_ranges c.

(** The class [\d]. *)
Definition is_digit (c : char) : bool := in_ranges decimal_ranges c.

Definition is_alnum (c : char) : bool := in_runs alnum_runs c.

(** The class [\w]: the alphanumeric characters and the underscore. *)
Definition is_word (c : char) : bool := is_alnum c || (c =? 0x5F).

Definition is_cased (c : char) : bool := in_runs cased_runs c.

Definition is_case_ignorable (c : char) : bool := in_runs case_ignorable_runs c.

(** The lower case of one character, as one character. *)
Definition to_lower (c : char) : char := default c (lookup_runs lower_runs c).

(** The title case of one character. *)
Definition to_title (c : char) : str :=
  match list_find (λ e, fst e = c) title_special with
  | Some (_, (_, t)) => t
  | None => [default c (lookup_runs title_runs c)]
  end.

Definition is_ascii_letter (c : char) : bool :=
  in_ranges [(0x41, 0x5A); (0x61, 0x7A)] c.

(** The characters [re] adds to the ones whose lower case is [c], when it
    ignores case: the dotless i for [i] and the long s for [s]. *)
Definition extra_cases (c : char) : list char :=
  if c =? 0x69 then [0x131] else if c =? 0x73 then [0x17F] else [].

(** Whether the literal [c] of a pattern compiled with [re.IGNORECASE]
    matches [ch], for a literal of the ASCII range: a letter matches the
    characters whose lower case is its own lower case or one of the extra
    cases of it, any other character matches itself only. *)
Definition eqb_nocase (c ch : char) : bool :=
  if is_ascii_letter c
  then existsb (N.eqb (to_lower ch)) (to_lower c :: extra_cases (to_lower c))
  else ch =? c.

Definition newline : char := 0x0A.
Definition squote : char := 0x27.
Definition dquote : char := 0x22.
Definition lbracket : char := 0x5B.
Definition rbracket : char := 0x5D.

End Chars.

(** ** The [str] methods used by the pipeline *)

Module Str.

(** The lower case of one character in full: the capital I with a dot above
    becomes an i followed by a combining dot. *)
Definition lower_full (c : char) : str :=
  if c =? 0x130 then [0x69; 0x307] else [Chars.to_lower c].

(** The first character that is not case-ignorable, if there is one. *)
Fixpoint first_not_ignorable (s : str) : option char :=
  match s with
  | [] => None
  | c :: s' =>
      if Chars.is_case_ignorable c then first_not_ignorable s' else Some c
  end.

(** Whether a capital sigma stands at the end of a word: a cased character
    comes before it and none comes after it, case-ignorable characters set
    aside. [before] lists the characters before the sigma, the nearest
    first. *)
Definition final_sigma (before after : str) : bool :=
  match first_not_ignorable before with
  | Some c =>
      Chars.is_cased c &&
      match first_not_ignorable after with
      | Some c' => negb (Chars.is_cased c')
      | None => true
      end
  | None => false
  end.

Definition lower_char (before : str) (c : char) (after : str) : str :=
  if c =? 0x3A3
  then [if final_sigma before after then 0x3C2 else 0x3C3]
  else lower_full c.

Fixpoint lower_from (before s : str) : str :=
  match s with
  | [] => []
  | c :: s' => lower_char before c s' ++ lower_from (c :: before) s'
  end.

(** [s.lower()] *)
Definition lower (s : str) : str := lower_from [] s.

(** [s.title()]: a character is put in title case when the character before
    it is not cased, and in lower case otherwise. *)
Fixpoint title_from (before : str) (previous_is_cased : bool) (s : str)
    : str :=
  match s with
  | [] => []
  | c :: s' =>
      (if previous_is_cased then lower_char before c s' else Chars.to_title c)
      ++ title_from (c :: before) (Chars.is_cased c) s'
  end.

Definition title (s : str) : str := title_from [] false s.

Fixpoint lstrip (s : str) : str :=
  match s with
  | [] => []
  | c :: s' => if Chars.is_space c then lstrip s' else s
  end.

Fixpoint rstrip (s : str) : str :=
  match s with
  | [] => []
  | c :: s' =>
      match rstrip s' with
      | [] => if Chars.is_space c then [] else [c]
      | r => c :: r
      end
  end.

(** [s.strip()] *)
Definition strip (s : str) : str := lstrip (rstrip s).

(** [s.startswith(p)] *)
Fixpoint startswith (s p : str) : bool :=
  match p, s with
  | [], _ => true
  | a :: p', b :: s' => (a =? b) && startswith s' p'
  | _ :: _, [] => false
  end.

(** [k in s] *)
Fixpoint contains (s k : str) : bool :=
  startswith s k ||
  match s with
  | [] => false
  | _ :: s' => contains s' k
  end.

(** Truth value of a string: the empty string is falsy. *)
Definition truthy (s : str) : bool :=
  match s with [] => false | _ :: _ => true end.

Fixpoint digits (u : Decimal.uint) : str :=
  match u with
  | Decimal.Nil => []
  | Decimal.D0 u' => 0x30 :: digits u'
  | Decimal.D1 u' => 0x31 :: digits u'
  | Decimal.D2 u' => 0x32 :: digits u'
  | Decimal.D3 u' => 0x33 :: digits u'
  | Decimal.D4 u' => 0x34 :: digits u'
  | Decimal.D5 u' => 0x35 :: digits u'
  | Decimal.D6 u' => 0x36 :: digits u'
  | Decimal.D7 u' => 0x37 :: digits u'
  | Decimal.D8 u' => 0x38 :: digits u'
  | Decimal.D9 u' => 0x39 :: digits u'
  end.

(** [str(n)] for an integer. *)
Definition of_Z (n : Z) : str :=
  match Z.to_int n with
  | Decimal.Pos u => digits u
  | Decimal.Neg u => "-" ++ digits u
  end.

(** [str(b)] for a boolean. *)
Definition of_bool (b : bool) : str := if b then "True" else "False".

(** [sep.join(parts)] *)
Fixpoint join (sep : str) (parts : list str) : str :=
  match parts with
  | [] => []
  | [p] => p
  | p :: rest => p ++ sep ++ join sep rest
  end.

Definition nl : str := [Chars.newline].

End Str.

(** ** A backtracking matcher for the fragment of [re] the pipeline uses

    Repetition is only ever applied to a one-character class in the patterns
    of [graph.py], so [Star] and [Plus] take a character predicate.  The
    matcher is written in continuation-passing style; the order in which
    alternatives are tried is the one of Python's engine: the left branch
    of [|] first, the longest repetition first for a greedy quantifier and the
    shortest first for a lazy one. *)

Module Re.

Inductive regex : Type :=
| Eps
| Chr (p : char → bool)
| Seq (r1 r2 : regex)
| Alt (r1 r2 : regex)
| Opt (r : regex)
| Star (greedy : bool) (p : char → bool)
| Plus (greedy : bool) (p : char → bool)
| Group (n : nat) (r : regex)
| WordBoundary.

Abbreviation groups := (gmap nat str).

(** The continuation receives the character before the current position,
    the rest of the subject and the groups captured so far. *)
Definition cont := option char → str → groups → option groups.

(** [\b]: exactly one side of the position is a word character. *)
Definition word_side (c : option char) : bool :=
  match c with Some a => Chars.is_word a | None => false end.

Definition at_boundary (prev : option char) (s : str) : bool :=
  xorb (word_side prev) (word_side (head s)).

Fixpoint star_greedy (p : char → bool) (prev : option char) (s : str)
    (g : groups) (k : cont) : option groups :=
  match s with
  | c :: s' =>
      if p c then
        match star_greedy p (Some c) s' g k with
        | Some res => Some res
        | None => k prev s g
        end
      else k prev s g
  | [] => k prev s g
  end.

Fixpoint star_lazy (p : char → bool) (prev : option char) (s : str)
    (g : groups) (k : cont) : option groups :=
  match k prev s g with
  | Some res => Some res
  | None =>
      match s with
      | c :: s' => if p c then star_lazy p (Some c) s' g k else None
      | [] => None
      end
  end.

Definition star (greedy : bool) :=
  if greedy then star_greedy else star_lazy.

(** The text consumed between two positions of the same subject. *)
Definition consumed (s s' : str) : str := take (length s - length s') s.

Fixpoint rmatch (r : regex) (prev : option char) (s : str) (g : groups)
    (k : cont) : option groups :=
  match r with
  | Eps => k prev s g
  | Chr p =>
      match s with
      | c :: s' => if p c then k (Some c) s' g else None
      | [] => None
      end
  | Seq r1 r2 =>
      rmatch r1 prev s g (λ prev' s' g', rmatch r2 prev' s' g' k)
  | Alt r1 r2 =>
      match rmatch r1 prev s g k with
      | Some res => Some res
      | None => rmatch r2 prev s g k
      end
  | Opt r1 =>
      match rmatch r1 prev s g k with
      | Some res => Some res
      | None => k prev s g
      end
  | Star greedy p => star greedy p prev s g k
  | Plus greedy p =>
      match s with
      | c :: s' => if p c then star greedy p (Some c) s' g k else None
      | [] => None
      end
  | Group n r1 =>
      rmatch r1 prev s g (λ prev' s' g', k prev' s' (<[n := consumed s s']> g'))
  | WordBoundary => if at_boundary prev s then k prev s g else None
  end.

Definition accept : cont := λ _ _ g, Some g.

(** A match object: where the match starts and what each group holds;
    group 0 is the whole match. *)
Record Match : Type := { m_start : nat; m_groups : groups }.

(** [pattern.search(s)]: the first start position, from the left, at which
    the pattern matches. *)
Fixpoint search_from (r : regex) (start : nat) (prev : option char)
    (s : str) : option Match :=
  match rmatch (Group 0 r) prev s ∅ accept with
  | Some g => Some {| m_start := start; m_groups := g |}
  | None =>
      match s with
      | c :: s' => search_from r (S start) (Some c) s'
      | [] => None
      end
  end.

Definition search (r : regex) (s : str) : option Match :=
  search_from r 0 None s.

(** [m.group(n)]; [None] when the group took no part in the match. *)
Definition group (m : Match) (n : nat) : option str := m_groups m !! n.

(** Pattern builders. [lit] is a literal word, matched without regard to
    case when [nocase] is set ([re.IGNORECASE]). *)
Definition chr (nocase : bool) (c : char) : regex :=
  Chr (if nocase then Chars.eqb_nocase c else N.eqb c).

Fixpoint lit (nocase : bool) (w : str) : regex :=
  match w with
  | [] => Eps
  | [c] => chr nocase c
  | c :: w' => Seq (chr nocase c) (lit nocase w')
  end.

(** *** What a pattern denotes

    [denote r prev s1 rest g g'] holds when [r] can consume exactly [s1],
    with [prev] the character before [s1] and [rest] the subject after it,
    taking the captured groups from [g] to [g']. *)

Fixpoint last_char (prev : option char) (s1 : str) : option char :=
  match s1 with
  | [] => prev
  | c :: s1' => last_char (Some c) s1'
  end.

Fixpoint denote (r : regex) (prev : option char) (s1 rest : str)
    (g g' : groups) : Prop :=
  match r with
  | Eps => s1 = [] ∧ g' = g
  | Chr p => ∃ c, s1 = [c] ∧ p c = true ∧ g' = g
  | Seq r1 r2 =>
      ∃ a b gm, s1 = a ++ b ∧ denote r1 prev a (b ++ rest) g gm
                ∧ denote r2 (last_char prev a) b rest gm g'
  | Alt r1 r2 => denote r1 prev s1 rest g g' ∨ denote r2 prev s1 rest g g'
  | Opt r1 => denote r1 prev s1 rest g g' ∨ (s1 = [] ∧ g' = g)
  | Star _ p => forallb p s1 = true ∧ g' = g
  | Plus _ p => s1 ≠ [] ∧ forallb p s1 = true ∧ g' = g
  | Group n r1 => ∃ gm, denote r1 prev s1 rest g gm ∧ g' = <[n := s1]> gm
  | WordBoundary => s1 = [] ∧ g' = g ∧ at_boundary prev rest = true
  end.

(** Whether every way of matching [r] captures group [n]. *)
Fixpoint always_sets (r : regex) (n : nat) : bool :=
  match r with
  | Seq r1 r2 => always_sets r1 n || always_sets r2 n
  | Alt r1 r2 => always_sets r1 n && always_sets r2 n
  | Group m r1 => Nat.eqb m n || always_sets r1 n
  | _ => false
  end.

End Re.

Local Close Scope N_scope.

(** ** Exceptions and fallible computations *)

Inductive exn : Type :=
| KeyError (key : str)              (* a missing dictionary key *)
| IndexError                        (* a list index out of range *)
| AttributeError (msg : str)        (* a method called on [None] *)
| GraphRecursionError               (* langgraph's step limit was reached *)
| BackendError (msg : str).         (* an external collaborator failed *)

(** [str(e)], as an f-string renders the exception. *)
Definition exn_str (e : exn) : str :=
  match e with
  | KeyError key => "'" ++ key ++ "'"
  | IndexError => "list index out of range"
  | AttributeError msg => msg
  | GraphRecursionError => "Recursion limit reached without hitting a stop condition"
  | BackendError msg => msg
  end.

Inductive result (A : Type) : Type :=
| Ok (a : A)
| Raise (e : exn).
Arguments Ok {A} a.
Arguments Raise {A} e.

#[global] Instance result_ret : MRet result := λ A a, Ok a.

#[global] Instance result_bind : MBind result := λ A B f m,
  match m with
  | Ok a => f a
  | Raise e => Raise e
  end.

#[global] Instance result_fmap : FMap result := λ A B f m,
  match m with
  | Ok a => Ok (f a)
  | Raise e => Raise e
  end.

(** [try: body  except Exception as e: handler(e)] *)
Definition try_except {A : Type} (body : result A) (handler : exn → result A)
    : result A :=
  match body with
  | Ok a => Ok a
  | Raise e => handler e
  end.

(** [xs[0]] *)
Definition first_item {A : Type} (xs : list A) : result A :=
  match xs with
  | x :: _ => Ok x
  | [] => Raise IndexError
  end.

(** A method or attribute looked up on [None]. *)
Definition none_has_no (attribute : str) : exn :=
  AttributeError ("'NoneType' object has no attribute '" ++ attribute ++ "'").

(** ** The data model *)

(** A value stored in a chunk's metadata: text or an integer. *)
Inductive pyval : Type :=
| PStr (s : str)
| PInt (n : Z).

Definition pyval_str (v : pyval) : str :=
  match v with
  | PStr s => s
  | PInt n => Str.of_Z n
  end.

(** One retrieved passage, a dictionary with the keys [document], [metadata]
    and [distance].  The collection gives [None] as the document or as the
    metadata of a record that was stored without one.  Distances and
    temperatures are floating-point numbers the pipeline only passes along;
    they are carried as rationals. *)
Record Context : Type := {
  document : option str;
  metadata : option (gmap str pyval);
  distance : Q;
}.

(** [AgentState] is a [TypedDict] with [total=False]: every key may be absent. *)
Record AgentState : Type := {
  query : option str;
  intent : option str;
  top_k : option Z;
  style : option str;
  temperature : option Q;
  contexts : option (list Context);
  answer : option str;
  proposed_action : option (gmap str str);
  log : option (list str);
}.

Definition set_intent (v : str) (st : AgentState) : AgentState :=
  {| query := query st; intent := Some v; top_k := top_k st; style := style st;
     temperature := temperature st; contexts := contexts st; answer := answer st;
     proposed_action := proposed_action st; log := log st |}.

Definition set_contexts (v : list Context) (st : AgentState) : AgentState :=
  {| query := query st; intent := intent st; top_k := top_k st; style := style st;
     temperature := temperature st; contexts := Some v; answer := answer st;
     proposed_action := proposed_action st; log := log st |}.

Definition set_answer (v : str) (st : AgentState) : AgentState :=
  {| query := query st; intent := intent st; top_k := top_k st; style := style st;
     temperature := temperature st; contexts := contexts st; answer := Some v;
     proposed_action := proposed_action st; log := log st |}.

Definition set_proposed_action (v : gmap str str) (st : AgentState)
    : AgentState :=
  {| query := query st; intent := intent st; top_k := top_k st; style := style st;
     temperature := temperature st; contexts := contexts st; answer := answer st;
     proposed_action := Some v; log := log st |}.

Definition set_log (v : list str) (st : AgentState) : AgentState :=
  {| query := query st; intent := intent st; top_k := top_k st; style := style st;
     temperature := temperature st; contexts := contexts st; answer := answer st;
     proposed_action := proposed_action st; log := Some v |}.

(** [state[query]]: the key must be present. *)
Definition get_query (st : AgentState) : result str :=
  match query st with
  | Some q => Ok q
  | None => Raise (KeyError "query")
  end.

(** ** The language-model boundary ([llm.py]) *)

Record ChatRequest : Type := {
  req_model : str;
  req_messages : list (str * str);           (* role, content *)
  req_temperature : Q;
  req_max_tokens : Z;
}.

Record Choice : Type := { message_content : option str }.
Record ChatResponse : Type := { choices : list Choice }.

(** The remote client: its one operation may fail. *)
Record Client : Type := {
  chat_completions_create : ChatRequest → result ChatResponse;
}.

(** What the module reads when it is imported: the two environment variables
    and the [Groq] constructor, [None] when the optional import failed.  The
    constructor is a call into the library and may raise. *)
Record LlmEnv : Type := {
  GROQ_API_KEY : option str;
  GROQ_MODEL : str;
  Groq : option (str → result Client);
}.

(** [get_llm_client]: [cached] is the current value of the module variable
    [_client]; the value returned is also the new value of [_client].  An
    exception of the constructor is not caught. *)
Definition get_llm_client (env : LlmEnv) (cached : option Client)
    : result (option Client) :=
  match cached with
  | Some c => Ok (Some c)
  | None =>
      match GROQ_API_KEY env, Groq env with
      | Some key, Some make =>
          if Str.truthy key then Some <$> make key else Ok None
      | _, _ => Ok None
      end
  end.

Definition SYSTEM_PROMPT : str :=
  "You are an operations copilot for finance, menu, onboarding, and platform workflows. "
  ++ "Use ONLY the provided context to answer. If the context is insufficient, say you are unsure and list what is missing. "
  ++ "Write in clear, professional, natural English for an operations audience. Prefer concise but complete explanations. "
  ++ "Formatting requirements:" ++ Str.nl
  ++ "- Start with a one-sentence executive summary." ++ Str.nl
  ++ "- Then provide a numbered step-by-step procedure." ++ Str.nl
  ++ "- Add short ‘Notes’ for edge cases, validation, or policies if relevant." ++ Str.nl
  ++ "- Cite sources inline using [filename pX] exactly where claims are supported." ++ Str.nl
  ++ "Do NOT reveal chain-of-thought; return only the final answer.".

(** [meta.get(key, default)] rendered by an f-string. *)
Definition meta_get (meta : gmap str pyval) (key : str) (dflt : str) : str :=
  match meta !! key with
  | Some v => pyval_str v
  | None => dflt
  end.

(** The block of one passage.  [meta.get] raises when the metadata is
    [None]; a document that is [None] is rendered as the word None. *)
Definition context_chunk (c : Context) : result str :=
  match metadata c with
  | None => Raise (none_has_no "get")
  | Some meta =>
      let src := meta_get meta "filename" (meta_get meta "source" []) in
      let page := meta_get meta "page" "?" in
      let text := default "None" (document c) in
      Ok ("Source: " ++ src ++ " p" ++ page ++ Str.nl ++ text)
  end.

Definition format_context_block (ctxs : list Context) : result str :=
  Str.join (Str.nl ++ Str.nl ++ "---" ++ Str.nl ++ Str.nl)
    <$> mapM context_chunk ctxs.

Definition LLM_DISABLED : str :=
  "[LLM disabled] Provide GROQ_API_KEY in .env. Proceed with retrieved sources below.".

Definition llm_error (e : exn) : str :=
  "[LLM error] " ++ exn_str e ++ ". Proceed with retrieved sources below.".

Definition build_prompt (q : str) (context_block : str) : str :=
  "Context:" ++ Str.nl ++ context_block ++ Str.nl ++ Str.nl
  ++ "Question: " ++ q ++ Str.nl ++ "Answer:".

Definition system_message_for (sty : option str) : str :=
  match sty with
  | Some s =>
      if Str.truthy s then
        if bool_decide (Str.lower s = "concise") then
          SYSTEM_PROMPT ++ " Focus on brevity. Use at most 6–8 bullets in the procedure."
        else if bool_decide (Str.lower s = "detailed") then
          SYSTEM_PROMPT ++ " Provide rich, detailed steps and short rationale where helpful."
        else SYSTEM_PROMPT
      else SYSTEM_PROMPT
  | None => SYSTEM_PROMPT
  end.

Definition chat_request (env : LlmEnv) (prompt : str) (temp : Q)
    (max_tokens : Z) (sty : option str) : ChatRequest :=
  {| req_model := GROQ_MODEL env;
     req_messages := [("system", system_message_for sty); ("user", prompt)];
     req_temperature := temp;
     req_max_tokens := max_tokens |}.

(** [answer_with_citations]: the client is fetched and the passages are
    formatted before the [try] block; the call and the reading of its
    response are inside of it. *)
Definition answer_with_citations (env : LlmEnv) (cached : option Client)
    (q : str) (ctxs : list Context) (temp : Q) (max_tokens : Z)
    (sty : option str) : result str :=
  client ← get_llm_client env cached;
  match client with
  | None => Ok LLM_DISABLED
  | Some client =>
      context_block ← format_context_block ctxs;
      let prompt := build_prompt q context_block in
      try_except
        (resp ← chat_completions_create client
                  (chat_request env prompt temp max_tokens sty);
         choice ← first_item (choices resp);
         Ok (Str.strip (default [] (message_content choice))))
        (λ e, Ok (llm_error e))
  end.

(** ** The retrieval boundary *)

Definition embedding := list Q.

(** The dictionary returned by [coll.query]: each key, when present, holds one
    row per query embedding; an entry of a row of documents or of metadata
    is [None] for a record stored without it. *)
Record QueryResult : Type := {
  documents : option (list (list (option str)));
  metadatas : option (list (list (option (gmap str pyval))));
  distances : option (list (list Q));
}.

(** The sentence embedder and the vector collection: each has one operation,
    which may fail. *)
Record Embedder : Type := {
  encode : list str → result (list embedding);
}.

Record Collection : Type := {
  coll_query : list embedding → Z → result QueryResult;
}.

(** The external collaborators of one process.  [embedder_cache],
    [collection_cache] and [llm_client] are the current values of the module
    variables [_embedder], [_collection] and [_client];
    [SentenceTransformer] is the constructor called on the embedding model's
    name and [get_or_create_collection] is the opening of the persistent
    collection, both of which may raise. *)
Record World : Type := {
  embedder_cache : option Embedder;
  SentenceTransformer : result Embedder;
  collection_cache : option Collection;
  get_or_create_collection : result Collection;
  llm_env : LlmEnv;
  llm_client : option Client;
}.

Definition get_embedder (w : World) : result Embedder :=
  match embedder_cache w with
  | Some e => Ok e
  | None => SentenceTransformer w
  end.

Definition get_collection (w : World) : result Collection :=
  match collection_cache w with
  | Some c => Ok c
  | None => get_or_create_collection w
  end.

(** ** Nodes ([graph.py]) *)

Definition action_keywords : list str :=
  ["pause"; "unpause"; "resume"; "update hours"; "change hours"; "set hours"].

Definition router_node (st : AgentState) : AgentState :=
  let q := Str.lower (default [] (query st)) in
  let lg := default [] (log st) in
  let intent : str :=
    if existsb (λ k, Str.contains q k) action_keywords then "action"
    else "knowledge" in
  let lg := lg ++ ["Router → " ++ Str.title intent] in
  set_log lg (set_intent intent st).

Fixpoint zip3 {A B C : Type} (xs : list A) (ys : list B) (zs : list C)
    : list (A * B * C) :=
  match xs, ys, zs with
  | x :: xs', y :: ys', z :: zs' => (x, y, z) :: zip3 xs' ys' zs'
  | _, _, _ => []
  end.

Definition retriever_node (w : World) (st : AgentState) : result AgentState :=
  let k := default 4%Z (top_k st) in
  q ← get_query st;
  model ← get_embedder w;
  coll ← get_collection w;
  q_emb ← encode model [q];
  res ← coll_query coll q_emb k;
  docs ← first_item (default [[]] (documents res));
  metas ← first_item (default [[]] (metadatas res));
  dists ← first_item (default [[]] (distances res));
  let ctxs :=
    (λ '(doc, meta, dist),
       {| document := doc; metadata := meta; distance := dist |})
    <$> zip3 docs metas dists in
  let lg := default [] (log st) ++ ["Retriever → Compose"] in
  Ok (set_log lg (set_contexts ctxs st)).

Definition compose_node (w : World) (st : AgentState) : result AgentState :=
  q ← get_query st;
  let ctxs := default [] (contexts st) in
  let sty := default "detailed" (style st) in
  let temp := default (1 # 5)%Q (temperature st) in
  ans ← answer_with_citations (llm_env w) (llm_client w) q ctxs temp 768 (Some sty);
  let lg := default [] (log st) ++ ["Compose → Critic"] in
  Ok (set_log lg (set_answer ans st)).

(** The class [[^\]]]: any character but a closing bracket. *)
Definition not_rbracket (c : char) : bool :=
  negb (N.eqb c Chars.rbracket).

(** The pattern [\[[^\]]+ p\d+\]]. *)
Definition grounded_re : Re.regex :=
  Re.Seq (Re.chr false Chars.lbracket)
 (Re.Seq (Re.Plus true not_rbracket)
 (Re.Seq (Re.chr false 0x20%N)
 (Re.Seq (Re.chr false 0x70%N)
 (Re.Seq (Re.Plus true Chars.is_digit)
         (Re.chr false Chars.rbracket))))).

(** The grounding test of [critic_node]: whether [re.search] finds
    [grounded_re] in the answer. *)
Definition check_grounded (ans : str) : bool :=
  bool_decide (is_Some (Re.search grounded_re ans)).

Definition critic_node (st : AgentState) : AgentState :=
  let ans := default [] (answer st) in
  let grounded := check_grounded ans in
  let lg := default [] (log st)
            ++ ["Critic → END (grounded=" ++ Str.of_bool grounded ++ ")"] in
  set_log lg st.

Definition is_quote (c : char) : bool :=
  N.eqb c Chars.squote || N.eqb c Chars.dquote.

(** [(pause|unpause|resume)\s+'?Q?([^'Q]+?)'?Q?\b] where [Q] stands for the
    double-quote character; compiled with [re.IGNORECASE]. *)
Definition action_item_re : Re.regex :=
  Re.Seq (Re.Group 1 (Re.Alt (Re.lit true "pause")
                     (Re.Alt (Re.lit true "unpause") (Re.lit true "resume"))))
 (Re.Seq (Re.Plus true Chars.is_space)
 (Re.Seq (Re.Opt (Re.chr true Chars.squote))
 (Re.Seq (Re.Opt (Re.chr true Chars.dquote))
 (Re.Seq (Re.Group 2 (Re.Plus false (λ c, negb (is_quote c))))
 (Re.Seq (Re.Opt (Re.chr true Chars.squote))
 (Re.Seq (Re.Opt (Re.chr true Chars.dquote))
         Re.WordBoundary)))))).

(** [(update|set|change)\s+(opening\s+)?hours] followed by a third group
    holding the rest of the line (any characters but a newline, greedy);
    compiled with [re.IGNORECASE]. *)
Definition action_hours_re : Re.regex :=
  Re.Seq (Re.Group 1 (Re.Alt (Re.lit true "update")
                     (Re.Alt (Re.lit true "set") (Re.lit true "change"))))
 (Re.Seq (Re.Plus true Chars.is_space)
 (Re.Seq (Re.Opt (Re.Group 2 (Re.Seq (Re.lit true "opening")
                                     (Re.Plus true Chars.is_space))))
 (Re.Seq (Re.lit true "hours")
         (Re.Group 3 (Re.Star true (λ c, negb (N.eqb c Chars.newline))))))).

(** [m.group(n)] followed by a [str] method: a group that took no part in the
    match is [None], on which the method call raises. *)
Definition group_str (m : Re.Match) (n : nat) (method : str) : result str :=
  match Re.group m n with
  | Some s => Ok s
  | None => Raise (none_has_no method)
  end.

(** The proposal built by [action_node] from the query. *)
Definition extract_action (q : str) : result (gmap str str) :=
  let proposed : gmap str str :=
    <["original_query" := q]> {["type" := "unknown"]} in
  match Re.search action_item_re q with
  | Some m_item =>
      verb ← Str.lower <$> group_str m_item 1 "lower";
      item ← Str.strip <$> group_str m_item 2 "strip";
      let proposed :=
        if bool_decide (verb = "pause") then <["type" := "pause_item"]> proposed
        else <["type" := "unpause_item"]> proposed in
      Ok (<["item" := item]> proposed)
  | None =>
      match Re.search action_hours_re q with
      | Some m_hours =>
          details ← Str.strip <$> group_str m_hours 0 "strip";
          Ok (<["details" := details]> (<["type" := "update_hours"]> proposed))
      | None => Ok proposed
      end
  end.

(** [proposed.get('type')] as an f-string renders it. *)
Definition proposed_type (proposed : gmap str str) : str :=
  default "None" (proposed !! "type").

Definition action_node (st : AgentState) : result AgentState :=
  let q := default [] (query st) in
  proposed ← extract_action q;
  let lg := default [] (log st)
            ++ ["Action → END (proposed=" ++ proposed_type proposed ++ ")"] in
  let ans := "I identified an action request: " ++ proposed_type proposed ++ ". "
             ++ "Review the proposed parameters below and approve to execute." in
  Ok (set_log lg (set_answer ans (set_proposed_action proposed st))).

(** ** The graph built by [get_graph] and the entry point [invoke_graph] *)

Inductive node : Type := Router | Retriever | Compose | Critic | ActionN.

Inductive target : Type := Goto (n : node) | END.

(** [sg.add_node(name, fn)] *)
Definition node_fn (w : World) (n : node) (st : AgentState) : result AgentState :=
  match n with
  | Router => Ok (router_node st)
  | Retriever => retriever_node w st
  | Compose => compose_node w st
  | Critic => Ok (critic_node st)
  | ActionN => action_node st
  end.

Definition route_selector (st : AgentState) : str :=
  default "knowledge" (intent st).

(** The mapping given to [add_conditional_edges]; a key outside of it is a
    [KeyError]. *)
Definition branch_of (key : str) : result target :=
  if bool_decide (key = "knowledge") then Ok (Goto Retriever)
  else if bool_decide (key = "action") then Ok (Goto ActionN)
  else Raise (KeyError key).

(** [sg.add_edge] and [sg.add_conditional_edges]: where control goes after a
    node has run. *)
Definition edge (n : node) (st : AgentState) : result target :=
  match n with
  | Router => branch_of (route_selector st)
  | Retriever => Ok (Goto Compose)
  | Compose => Ok (Goto Critic)
  | Critic => Ok END
  | ActionN => Ok END
  end.

(** langgraph runs at most [recursion_limit] steps (25 by default). *)
Definition recursion_limit : nat := 25.

(** Running the compiled graph from a node: the state reached at [END]
    together with the nodes that ran, in order. *)
Fixpoint run_from (w : World) (fuel : nat) (n : node) (st : AgentState)
    : result (list node * AgentState) :=
  match fuel with
  | O => Raise GraphRecursionError
  | S fuel' =>
      st' ← node_fn w n st;
      t ← edge n st';
      match t with
      | END => Ok ([n], st')
      | Goto n' =>
          '(ns, st'') ← run_from w fuel' n' st';
          Ok (n :: ns, st'')
      end
  end.

(** [graph.invoke(init)]: [START] leads to the router. *)
Definition graph_run (w : World) (init : AgentState)
    : result (list node * AgentState) :=
  run_from w recursion_limit Router init.

Definition graph_invoke (w : World) (init : AgentState) : result AgentState :=
  snd <$> graph_run w init.

Definition initial_state (q : str) (k : Z) (sty : option str) (temp : Q)
    : AgentState :=
  {| query := Some q; intent := None; top_k := Some k;
     style := match sty with
              | Some s => if Str.truthy s then Some s else None
              | None => None
              end;
     temperature := Some temp; contexts := None; answer := None;
     proposed_action := None; log := Some [] |}.

Definition invoke_graph (w : World) (q : str) (k : Z) (sty : option str)
    (temp : Q) : result AgentState :=
  graph_invoke w (initial_state q k sty temp).

(** The defaults of [invoke_graph]'s keyword arguments. *)
Definition default_top_k : Z := 4.
Definition default_temperature : Q := 1 # 5.

(** ** Notions used to state the properties *)

(** [k] occurs in [s] as a contiguous run of characters. *)
Definition is_substring (k s : str) : Prop :=
  ∃ pre post, s = pre ++ k ++ post.

(** The lower-cased query contains one of the router's keywords. *)
Definition has_keyword (q : str) : Prop :=
  ∃ k, k ∈ action_keywords ∧ is_substring k (Str.lower q).

(** A citation marker: an opening bracket, a non-empty token free of closing
    brackets, a space, the letter p, one or more characters of the class
    [digit], a closing bracket. *)
Definition is_citation (digit : char → bool) (m : str) : Prop :=
  ∃ tok page,
    m = "[" ++ tok ++ " p" ++ page ++ "]"
    ∧ tok ≠ []
    ∧ forallb not_rbracket tok = true
    ∧ page ≠ []
    ∧ forallb digit page = true.

Definition has_citation (digit : char → bool) (ans : str) : Prop :=
  ∃ m, is_citation digit m ∧ is_substring m ans.

(** The ten digits 0 to 9. *)
Definition is_ascii_digit (c : char) : bool := (0x30 <=? c)%N && (c <=? 0x39)%N.

(** The word a node's trace line starts with. *)
Definition node_label (n : node) : str :=
  match n with
  | Router => "Router →"
  | Retriever => "Retriever →"
  | Compose => "Compose →"
  | Critic => "Critic →"
  | ActionN => "Action →"
  end.

(** A field of the proposed action of a state, when both keys are there. *)
Definition proposal_field (key : str) (st : AgentState) : option str :=
  proposed_action st ≫= λ p, p !! key.

(** The knowledge path and the action path of the graph. *)
Definition knowledge_path : list node := [Router; Retriever; Compose; Critic].
Definition action_path : list node := [Router; ActionN].

(** An embedder that maps every text to the empty vector, and a collection
    that holds nothing. *)
Definition null_embedder : Embedder :=
  {| encode := λ qs, Ok ((λ _, []) <$> qs) |}.

Definition empty_collection : Collection :=
  {| coll_query := λ _ _,
       Ok {| documents := Some [[]]; metadatas := Some [[]];
             distances := Some [[]] |} |}.

Definition no_llm : LlmEnv :=
  {| GROQ_API_KEY := None; GROQ_MODEL := "openai/gpt-oss-20b"; Groq := None |}.

(** A world without a language-model key, whose collection is empty. *)
Definition offline_world : World :=
  {| embedder_cache := None; SentenceTransformer := Ok null_embedder;
     collection_cache := None; get_or_create_collection := Ok empty_collection;
     llm_env := no_llm; llm_client := None |}.

(** The four proposal types. *)
Definition proposal_types : list str :=
  ["pause_item"; "unpause_item"; "update_hours"; "unknown"].

(** The confirmation sentence [action_node] writes as the answer. *)
Definition action_answer (p : gmap str str) : str :=
  "I identified an action request: " ++ proposed_type p ++ ". "
  ++ "Review the proposed parameters below and approve to execute.".

(** The final state of a run that took the action path. *)
Definition action_final (q : str) (k : Z) (sty : option str) (temp : Q)
    (p : gmap str str) : AgentState :=
  {| query := Some q; intent := Some "action"; top_k := Some k;
     style := style (initial_state q k sty temp);
     temperature := Some temp; contexts := None;
     answer := Some (action_answer p);
     proposed_action := Some p;
     log := Some ["Router → Action";
                  "Action → END (proposed=" ++ proposed_type p ++ ")"] |}.

(** The state a knowledge run is in after the retriever node. *)
Definition retrieved (q : str) (k : Z) (sty : option str) (temp : Q)
    (ctxs : list Context) : AgentState :=
  {| query := Some q; intent := Some "knowledge"; top_k := Some k;
     style := style (initial_state q k sty temp);
     temperature := Some temp; contexts := Some ctxs; answer := None;
     proposed_action := None;
     log := Some ["Router → Knowledge"; "Retriever → Compose"] |}.

(** The final state of a run that took the knowledge path. *)
Definition knowledge_final (q : str) (k : Z) (sty : option str) (temp : Q)
    (ctxs : list Context) (ans : str) : AgentState :=
  {| query := Some q; intent := Some "knowledge"; top_k := Some k;
     style := style (initial_state q k sty temp);
     temperature := Some temp; contexts := Some ctxs;
     answer := Some ans;
     proposed_action := None;
     log := Some ["Router → Knowledge"; "Retriever → Compose";
                  "Compose → Critic";
                  "Critic → END (grounded="
                    ++ Str.of_bool (check_grounded ans) ++ ")"] |}.

(** The state the router hands to the next node. *)
Definition routed (q : str) (k : Z) (sty : option str) (temp : Q)
    : AgentState :=
  router_node (initial_state q k sty temp).

(** How a knowledge run ends without a final state: the retriever node
    raises, or it returns and the compose node raises. *)
Definition knowledge_run_raises (w : World) (q : str) (k : Z)
    (sty : option str) (temp : Q) (e : exn) : Prop :=
  retriever_node w (routed q k sty temp) = Raise e
  ∨ ∃ st, retriever_node w (routed q k sty temp) = Ok st
          ∧ compose_node w st = Raise e.

(** A trace line belongs to a node when it starts with the node's label. *)
Definition entry_of (n : node) (e : str) : Prop :=
  Str.startswith e (node_label n) = true.

(** What every final state holds: the four common keys, and the keys of
    exactly one branch. *)
Definition final_state_ok (st : AgentState) : Prop :=
  is_Some (query st) ∧ is_Some (intent st) ∧ is_Some (answer st)
  ∧ is_Some (log st)
  ∧ ((intent st = Some "knowledge" ∧ is_Some (contexts st)
      ∧ proposed_action st = None)
     ∨ (intent st = Some "action" ∧ is_Some (proposed_action st)
        ∧ contexts st = None)).

(** A client that always gives the same cited answer, and an environment in
    which it is the configured one. *)
Definition canned_client : Client :=
  {| chat_completions_create := λ _,
       Ok {| choices :=
               [{| message_content := Some "See [Finance_Guide p3] for details." |}] |} |}.

Definition canned_llm : LlmEnv :=
  {| GROQ_API_KEY := Some "key"; GROQ_MODEL := "openai/gpt-oss-20b";
     Groq := Some (λ _, Ok canned_client) |}.

Definition canned_world : World :=
  {| embedder_cache := None; SentenceTransformer := Ok null_embedder;
     collection_cache := None; get_or_create_collection := Ok empty_collection;
     llm_env := canned_llm; llm_client := None |}.

(** A record stored without metadata, a collection that returns it for every
    query, and a world with that collection and a configured client. *)
Definition bare_record : Context :=
  {| document := Some "Refunds are paid within 5 days."; metadata := None;
     distance := 1 # 10 |}.

Definition bare_collection : Collection :=
  {| coll_query := λ _ _,
       Ok {| documents := Some [[document bare_record]];
             metadatas := Some [[metadata bare_record]];
             distances := Some [[distance bare_record]] |} |}.

Definition bare_world : World :=
  {| embedder_cache := None; SentenceTransformer := Ok null_embedder;
     collection_cache := None; get_or_create_collection := Ok bare_collection;
     llm_env := canned_llm; llm_client := None |}.

(** An environment whose client constructor raises. *)
Definition broken_llm : LlmEnv :=
  {| GROQ_API_KEY := Some "key"; GROQ_MODEL := "openai/gpt-oss-20b";
     Groq := Some (λ _, Raise (BackendError "invalid client configuration")) |}.

(** The proposal every action run starts from. *)
Definition base_proposal (q : str) : gmap str str :=
  <["original_query" := q]> {["type" := "unknown"]}.

(** * Properties *)

(** ** Strings *)

Lemma startswith_spec (s p : str) :
  Str.startswith s p = true ↔ ∃ post, s = p ++ post.
Proof.
  revert s. induction p as [|a p IH]; intros s.
  - split; [intros _; by exists s | by destruct s].
  - destruct s as [|b s]; simpl.
    + split; [done | by intros [post Hpost]].
    + rewrite andb_true_iff, IH, N.eqb_eq. split.
      * intros [-> [post ->]]. by exists post.
      * intros [post Hpost]. injection Hpost as -> ->. eauto.
Qed.

Lemma contains_nil (k : str) :
  Str.contains [] k = Str.startswith [] k.
Proof. by destruct k. Qed.

Lemma contains_cons (c : char) (s k : str) :
  Str.contains (c :: s) k = Str.startswith (c :: s) k || Str.contains s k.
Proof. by destruct k. Qed.

Lemma contains_spec (s k : str) :
  Str.contains s k = true ↔ is_substring k s.
Proof.
  unfold is_substring. induction s as [|c s IH].
  - rewrite contains_nil, startswith_spec. split.
    + intros [post Hpost]. by exists [], post.
    + intros ([|c pre] & post & Hs); [by exists post | done].
  - rewrite contains_cons, orb_true_iff, IH, startswith_spec. split.
    + intros [[post Hpost] | (pre & post & ->)].
      * by exists [], post.
      * by exists (c :: pre), post.
    + intros ([|b pre] & post & Hs).
      * left. by exists post.
      * right. injection Hs as -> ->. eauto.
Qed.

Lemma not_contains_spec (s k : str) :
  Str.contains s k = false ↔ ¬ is_substring k s.
Proof. rewrite <-contains_spec. by destruct (Str.contains s k). Qed.

(** ** The matcher against what a pattern denotes *)

Lemma last_char_app (prev : option char) (a b : str) :
  Re.last_char (Re.last_char prev a) b = Re.last_char prev (a ++ b).
Proof. revert prev. induction a as [|c a IH]; intros prev; [done|]. apply IH. Qed.

Lemma consumed_app (s1 s2 : str) : Re.consumed (s1 ++ s2) s2 = s1.
Proof.
  unfold Re.consumed. rewrite length_app.
  replace (length s1 + length s2 - length s2) with (length s1) by lia.
  by rewrite take_app_length.
Qed.

Lemma star_sound greedy p prev s g k res :
  Re.star greedy p prev s g k = Some res →
  ∃ s1 s2, s = s1 ++ s2 ∧ forallb p s1 = true
           ∧ k (Re.last_char prev s1) s2 g = Some res.
Proof.
  destruct greedy; simpl; revert prev.
  - induction s as [|c s IH]; intros prev H; simpl in H.
    + by exists [], [].
    + destruct (p c) eqn:Hc; [|by exists [], (c :: s)].
      destruct (Re.star_greedy p (Some c) s g k) as [r|] eqn:Hrec.
      * injection H as ->. destruct (IH _ Hrec) as (s1 & s2 & -> & Hall & Hk).
        exists (c :: s1), s2. simpl. by rewrite Hc, Hall.
      * by exists [], (c :: s).
  - induction s as [|c s IH]; intros prev H; simpl in H.
    + destruct (k prev [] g) as [r|] eqn:Hk; [|done].
      injection H as ->. by exists [], [].
    + destruct (k prev (c :: s) g) as [r|] eqn:Hk.
      * injection H as ->. by exists [], (c :: s).
      * destruct (p c) eqn:Hc; [|done].
        destruct (IH _ H) as (s1 & s2 & -> & Hall & Hk').
        exists (c :: s1), s2. simpl. by rewrite Hc, Hall.
Qed.

Lemma star_stop greedy p prev s g k :
  is_Some (k prev s g) → is_Some (Re.star greedy p prev s g k).
Proof.
  intros [r Hr]. destruct greedy, s as [|c s]; simpl; rewrite ?Hr; eauto.
  destruct (p c); [|eauto]. destruct (Re.star_greedy p (Some c) s g k); eauto.
Qed.

Lemma star_complete greedy p prev s1 s2 g k :
  forallb p s1 = true →
  is_Some (k (Re.last_char prev s1) s2 g) →
  is_Some (Re.star greedy p prev (s1 ++ s2) g k).
Proof.
  revert prev. induction s1 as [|c s1 IH]; intros prev Hall Hk.
  - by apply star_stop.
  - simpl in Hall. apply andb_true_iff in Hall as [Hc Hall].
    specialize (IH (Some c) Hall Hk). destruct greedy; simpl in *.
    + rewrite Hc. destruct IH as [r ->]. eauto.
    + destruct (k prev (c :: s1 ++ s2) g); [eauto|]. by rewrite Hc.
Qed.

Lemma rmatch_sound r prev s g k res :
  Re.rmatch r prev s g k = Some res →
  ∃ s1 s2 g', s = s1 ++ s2 ∧ Re.denote r prev s1 s2 g g'
              ∧ k (Re.last_char prev s1) s2 g' = Some res.
Proof.
  revert prev s g k res.
  induction r as [|p|r1 IH1 r2 IH2|r1 IH1 r2 IH2|r1 IH1|gr p|gr p|n r1 IH1|];
    intros prev s g k res H; simpl in H.
  - by exists [], s, g.
  - destruct s as [|c s]; [done|]. destruct (p c) eqn:Hc; [|done].
    exists [c], s, g. simpl. split_and!; [done| by exists c |done].
  - destruct (IH1 _ _ _ _ _ H) as (a & s' & gm & -> & Ha & H').
    destruct (IH2 _ _ _ _ _ H') as (b & s2 & g' & -> & Hb & Hk).
    exists (a ++ b), s2, g'. rewrite <-(assoc_L (++)), <-last_char_app.
    split; [done|]. split; [|done]. simpl. by exists a, b, gm.
  - destruct (Re.rmatch r1 prev s g k) as [r|] eqn:H1.
    + injection H as ->. destruct (IH1 _ _ _ _ _ H1) as (s1 & s2 & g' & ? & ? & ?).
      exists s1, s2, g'. simpl. eauto.
    + destruct (IH2 _ _ _ _ _ H) as (s1 & s2 & g' & ? & ? & ?).
      exists s1, s2, g'. simpl. eauto.
  - destruct (Re.rmatch r1 prev s g k) as [r|] eqn:H1.
    + injection H as ->. destruct (IH1 _ _ _ _ _ H1) as (s1 & s2 & g' & ? & ? & ?).
      exists s1, s2, g'. simpl. eauto.
    + exists [], s, g. simpl. eauto.
  - destruct (star_sound _ _ _ _ _ _ _ H) as (s1 & s2 & -> & Hall & Hk).
    by exists s1, s2, g.
  - destruct s as [|c s]; [done|]. destruct (p c) eqn:Hc; [|done].
    destruct (star_sound _ _ _ _ _ _ _ H) as (s1 & s2 & -> & Hall & Hk).
    exists (c :: s1), s2, g. simpl. by rewrite Hc, Hall.
  - destruct (IH1 _ _ _ _ _ H) as (s1 & s2 & gm & -> & Hd & Hk).
    rewrite consumed_app in Hk. exists s1, s2, (<[n := s1]> gm).
    simpl. eauto.
  - destruct (Re.at_boundary prev s) eqn:Hb; [|done].
    by exists [], s, g.
Qed.

Lemma rmatch_complete r prev s1 s2 g g' k :
  Re.denote r prev s1 s2 g g' →
  is_Some (k (Re.last_char prev s1) s2 g') →
  is_Some (Re.rmatch r prev (s1 ++ s2) g k).
Proof.
  revert prev s1 s2 g g' k.
  induction r as [|p|r1 IH1 r2 IH2|r1 IH1 r2 IH2|r1 IH1|gr p|gr p|n r1 IH1|];
    intros prev s1 s2 g g' k Hd Hk; simpl in Hd |- *.
  - by destruct Hd as [-> ->].
  - destruct Hd as (c & -> & Hc & ->). simpl. by rewrite Hc.
  - destruct Hd as (a & b & gm & -> & Ha & Hb).
    rewrite <-(assoc_L (++)). eapply IH1; [done|].
    eapply IH2; [done|]. by rewrite last_char_app.
  - destruct (Re.rmatch r1 prev (s1 ++ s2) g k) as [r|] eqn:H1; [eauto|].
    destruct Hd as [Hd|Hd]; [|by eapply IH2].
    eapply IH1 in Hd; [|done]. rewrite H1 in Hd. by destruct Hd.
  - destruct (Re.rmatch r1 prev (s1 ++ s2) g k) as [r|] eqn:H1; [eauto|].
    destruct Hd as [Hd|[-> ->]]; [|done].
    eapply IH1 in Hd; [|done]. rewrite H1 in Hd. by destruct Hd.
  - destruct Hd as [Hall ->]. by apply star_complete.
  - destruct Hd as (Hne & Hall & ->). destruct s1 as [|c s1]; [done|].
    simpl in Hall |- *. apply andb_true_iff in Hall as [Hc Hall].
    rewrite Hc. by apply star_complete.
  - destruct Hd as (gm & Hd & ->). eapply IH1; [done|].
    by rewrite consumed_app.
  - destruct Hd as (-> & -> & Hb). simpl. by rewrite Hb.
Qed.

Lemma search_from_unfold r start prev s :
  Re.search_from r start prev s
  = match Re.rmatch (Re.Group 0 r) prev s ∅ Re.accept with
    | Some g => Some {| Re.m_start := start; Re.m_groups := g |}
    | None =>
        match s with
        | c :: s' => Re.search_from r (S start) (Some c) s'
        | [] => None
        end
    end.
Proof. by destruct s. Qed.

Lemma search_from_sound r start prev s m :
  Re.search_from r start prev s = Some m →
  ∃ pre s1 s2 g',
    s = pre ++ s1 ++ s2
    ∧ Re.denote r (Re.last_char prev pre) s1 s2 ∅ g'
    ∧ Re.m_groups m = <[0 := s1]> g'
    ∧ Re.m_start m = start + length pre.
Proof.
  revert start prev. induction s as [|c s IH]; intros start prev;
    rewrite search_from_unfold;
    destruct (Re.rmatch (Re.Group 0 r) prev _ ∅ Re.accept) as [g|] eqn:Hm;
    intros H; try done.
  1,2: injection H as <-;
       apply rmatch_sound in Hm as (s1 & s2 & g' & Hs & (gm & Hd & ->) & Hacc);
       injection Hacc as <-; exists [], s1, s2, gm; simpl;
       split_and!; [done|done|done|lia].
  destruct (IH _ _ H) as (pre & s1 & s2 & g' & -> & Hd & Hg & Hstart).
  exists (c :: pre), s1, s2, g'. simpl. split_and!; [done|done|done|lia].
Qed.

Lemma search_from_complete r start prev pre s1 s2 g' :
  Re.denote r (Re.last_char prev pre) s1 s2 ∅ g' →
  is_Some (Re.search_from r start prev (pre ++ s1 ++ s2)).
Proof.
  revert start prev. induction pre as [|c pre IH]; intros start prev Hd;
    rewrite search_from_unfold;
    destruct (Re.rmatch (Re.Group 0 r) prev _ ∅ Re.accept) as [g|] eqn:Hm;
    try by eauto.
  - assert (is_Some (Re.rmatch (Re.Group 0 r) prev (s1 ++ s2) ∅ Re.accept))
      as [g Hg]; [|simpl in Hm, Hg; congruence].
    eapply rmatch_complete; [|by eexists]. simpl. eauto.
  - simpl. by apply IH.
Qed.

(** A match never forgets a group, and a pattern that always runs through a
    group leaves it set. *)
Lemma denote_keeps r prev s1 s2 g g' n :
  Re.denote r prev s1 s2 g g' → is_Some (g !! n) → is_Some (g' !! n).
Proof.
  revert prev s1 s2 g g'.
  induction r as [|p|r1 IH1 r2 IH2|r1 IH1 r2 IH2|r1 IH1|gr p|gr p|m r1 IH1|];
    intros prev s1 s2 g g' Hd Hn; simpl in Hd.
  - by destruct Hd as [_ ->].
  - by destruct Hd as (c & _ & _ & ->).
  - destruct Hd as (a & b & gm & _ & Ha & Hb). eauto.
  - destruct Hd as [Hd|Hd]; eauto.
  - destruct Hd as [Hd|[_ ->]]; eauto.
  - by destruct Hd as [_ ->].
  - by destruct Hd as (_ & _ & ->).
  - destruct Hd as (gm & Hd & ->).
    destruct (decide (m = n)) as [->|Hne].
    + rewrite lookup_insert_eq. eauto.
    + rewrite lookup_insert_ne by done. eauto.
  - by destruct Hd as (_ & -> & _).
Qed.

Lemma denote_sets r prev s1 s2 g g' n :
  Re.always_sets r n = true →
  Re.denote r prev s1 s2 g g' → is_Some (g' !! n).
Proof.
  revert prev s1 s2 g g'.
  induction r as [|p|r1 IH1 r2 IH2|r1 IH1 r2 IH2|r1 IH1|gr p|gr p|m r1 IH1|];
    intros prev s1 s2 g g' Hsets Hd; simpl in Hsets, Hd; try done.
  - destruct Hd as (a & b & gm & _ & Ha & Hb).
    apply orb_true_iff in Hsets as [Hsets|Hsets]; [|eauto].
    eapply denote_keeps; eauto.
  - apply andb_true_iff in Hsets as [? ?]. destruct Hd as [Hd|Hd]; eauto.
  - destruct Hd as (gm & Hd & ->).
    apply orb_true_iff in Hsets as [Heq|Hsets].
    + apply Nat.eqb_eq in Heq as ->. rewrite lookup_insert_eq. eauto.
    + destruct (decide (m = n)) as [->|Hne].
      * rewrite lookup_insert_eq. eauto.
      * rewrite lookup_insert_ne by done. eauto.
Qed.

Lemma search_group r s m n :
  Re.always_sets (Re.Group 0 r) n = true →
  Re.search r s = Some m → is_Some (Re.group m n).
Proof.
  intros Hsets Hm. unfold Re.search in Hm.
  apply search_from_sound in Hm as (pre & s1 & s2 & g' & _ & Hd & Hg & _).
  unfold Re.group. rewrite Hg.
  eapply (denote_sets (Re.Group 0 r)); [done|]. simpl. eauto.
Qed.

(** ** The action extractor never raises *)

(** Membership in a list that is written out. *)
Ltac in_list :=
  repeat first [apply list_elem_of_here | apply list_elem_of_further].

Lemma extract_action_total (q : str) :
  ∃ p, extract_action q = Ok p
       ∧ p !! "original_query" = Some q
       ∧ proposed_type p ∈ proposal_types.
Proof.
  unfold extract_action, proposed_type, proposal_types, group_str.
  destruct (Re.search action_item_re q) as [m|] eqn:Hitem.
  - destruct (search_group action_item_re q m 1 eq_refl Hitem) as [verb ->].
    destruct (search_group action_item_re q m 2 eq_refl Hitem) as [item ->].
    simpl. case_bool_decide;
      eexists; (split; [reflexivity|]); simplify_map_eq;
      (split; [done|]); in_list.
  - destruct (Re.search action_hours_re q) as [m|] eqn:Hhours.
    + destruct (search_group action_hours_re q m 0 eq_refl Hhours)
        as [details ->].
      simpl. eexists. split; [reflexivity|]. simplify_map_eq.
      split; [done|]. in_list.
    + eexists. split; [reflexivity|]. simplify_map_eq.
      split; [done|]. in_list.
Qed.

(** ** The synthesis boundary *)

Lemma context_chunk_cases (c : Context) :
  match context_chunk c with
  | Ok block => is_Some (metadata c)
  | Raise e => e = none_has_no "get" ∧ metadata c = None
  end.
Proof. unfold context_chunk. by destruct (metadata c). Qed.

Lemma mapM_context_chunk (ctxs : list Context) :
  match mapM context_chunk ctxs with
  | Ok blocks => Forall (λ c, is_Some (metadata c)) ctxs
  | Raise e => e = none_has_no "get" ∧ Exists (λ c, metadata c = None) ctxs
  end.
Proof.
  induction ctxs as [|c ctxs IH]; [by constructor|].
  change (mapM context_chunk (c :: ctxs))
    with (y ← context_chunk c; k ← mapM context_chunk ctxs; Ok (y :: k)).
  pose proof (context_chunk_cases c) as Hc.
  destruct (context_chunk c) as [block|e]; simpl.
  - destruct (mapM context_chunk ctxs) as [blocks|e]; simpl.
    + by constructor.
    + destruct IH as [-> IH]. split; [done|]. by apply Exists_cons_tl.
  - destruct Hc as [-> Hc]. split; [done|]. by apply Exists_cons_hd.
Qed.

Lemma format_context_block_cases (ctxs : list Context) :
  match format_context_block ctxs with
  | Ok block => Forall (λ c, is_Some (metadata c)) ctxs
  | Raise e => e = none_has_no "get" ∧ Exists (λ c, metadata c = None) ctxs
  end.
Proof.
  unfold format_context_block. pose proof (mapM_context_chunk ctxs) as H.
  by destruct (mapM context_chunk ctxs).
Qed.

Lemma get_llm_client_cases (env : LlmEnv) (cached : option Client) :
  match get_llm_client env cached with
  | Ok (Some client) =>
      cached = Some client
      ∨ (cached = None
         ∧ ∃ key make, GROQ_API_KEY env = Some key ∧ Str.truthy key = true
                       ∧ Groq env = Some make ∧ make key = Ok client)
  | Ok None =>
      cached = None
      ∧ (GROQ_API_KEY env = None ∨ GROQ_API_KEY env = Some [] ∨ Groq env = None)
  | Raise e =>
      cached = None
      ∧ ∃ key make, GROQ_API_KEY env = Some key ∧ Str.truthy key = true
                    ∧ Groq env = Some make ∧ make key = Raise e
  end.
Proof.
  unfold get_llm_client. destruct cached as [c|]; [by left|].
  destruct (GROQ_API_KEY env) as [key|]; [|by eauto].
  destruct (Groq env) as [make|]; [|by eauto].
  destruct key as [|c key]; simpl; [by eauto|].
  destruct (make (c :: key)) as [client|e] eqn:Hmake; simpl.
  - right. split; [done|]. by exists (c :: key), make.
  - split; [done|]. by exists (c :: key), make.
Qed.

(** The answer, case by case. *)
Lemma answer_with_citations_cases env cached q ctxs temp max_tokens sty :
  match get_llm_client env cached with
  | Raise e =>
      answer_with_citations env cached q ctxs temp max_tokens sty = Raise e
  | Ok None =>
      answer_with_citations env cached q ctxs temp max_tokens sty
      = Ok LLM_DISABLED
  | Ok (Some client) =>
      match format_context_block ctxs with
      | Raise e =>
          answer_with_citations env cached q ctxs temp max_tokens sty = Raise e
      | Ok block =>
          answer_with_citations env cached q ctxs temp max_tokens sty
          = Ok match chat_completions_create client
                       (chat_request env (build_prompt q block) temp max_tokens
                          sty) with
               | Raise e => llm_error e
               | Ok resp =>
                   match choices resp with
                   | [] => llm_error IndexError
                   | choice :: _ =>
                       Str.strip (default [] (message_content choice))
                   end
               end
      end
  end.
Proof.
  unfold answer_with_citations.
  destruct (get_llm_client env cached) as [[client|]|e]; simpl; try done.
  destruct (format_context_block ctxs) as [block|e]; simpl; [|done].
  destruct (chat_completions_create client _) as [resp|e]; simpl; [|done].
  by destruct (choices resp).
Qed.

(** ** The shape of a run *)

Lemma keyword_test (q : str) :
  existsb (λ k, Str.contains (Str.lower q) k) action_keywords = true
  ↔ has_keyword q.
Proof.
  unfold has_keyword. rewrite existsb_exists. split.
  - intros (k & Hin & Hk). exists k. split; [by apply list_elem_of_In|].
    by apply contains_spec.
  - intros (k & Hin & Hk). exists k. split; [by apply list_elem_of_In|].
    by apply contains_spec.
Qed.

Lemma routed_action q k sty temp :
  has_keyword q →
  routed q k sty temp
  = {| query := Some q; intent := Some "action"; top_k := Some k;
       style := style (initial_state q k sty temp);
       temperature := Some temp; contexts := None; answer := None;
       proposed_action := None; log := Some ["Router → Action"] |}.
Proof.
  intros Hkw%keyword_test. unfold routed, router_node.
  change (default [] (query (initial_state q k sty temp))) with q.
  by rewrite Hkw.
Qed.

Lemma routed_knowledge q k sty temp :
  ¬ has_keyword q →
  routed q k sty temp
  = {| query := Some q; intent := Some "knowledge"; top_k := Some k;
       style := style (initial_state q k sty temp);
       temperature := Some temp; contexts := None; answer := None;
       proposed_action := None; log := Some ["Router → Knowledge"] |}.
Proof.
  intros Hkw. unfold routed, router_node.
  change (default [] (query (initial_state q k sty temp))) with q.
  destruct (existsb _ action_keywords) eqn:Htest; [|done].
  by apply keyword_test in Htest.
Qed.

Lemma run_from_step w fuel n st :
  run_from w (S fuel) n st
  = (st' ← node_fn w n st;
     t ← edge n st';
     match t with
     | END => Ok ([n], st')
     | Goto n' => '(ns, st'') ← run_from w fuel n' st'; Ok (n :: ns, st'')
     end).
Proof. reflexivity. Qed.

Lemma graph_run_action w q k sty temp :
  has_keyword q →
  ∃ p, extract_action q = Ok p
       ∧ proposed_type p ∈ proposal_types
       ∧ p !! "original_query" = Some q
       ∧ graph_run w (initial_state q k sty temp)
         = Ok (action_path, action_final q k sty temp p).
Proof.
  intros Hkw. destruct (extract_action_total q) as (p & Hp & Hq & Hty).
  exists p. split_and!; try done.
  unfold graph_run, recursion_limit. rewrite run_from_step.
  change (node_fn w Router (initial_state q k sty temp))
    with (Ok (routed q k sty temp) : result AgentState).
  rewrite (routed_action _ _ _ _ Hkw). simpl.
  unfold action_node. simpl. by rewrite Hp.
Qed.

Lemma retriever_routed w q k sty temp st :
  ¬ has_keyword q →
  retriever_node w (routed q k sty temp) = Ok st →
  ∃ ctxs, st = retrieved q k sty temp ctxs.
Proof.
  intros Hkw. rewrite (routed_knowledge _ _ _ _ Hkw).
  unfold retriever_node. simpl.
  destruct (get_embedder w) as [model|]; simpl; [|done].
  destruct (get_collection w) as [coll|]; simpl; [|done].
  destruct (encode model [q]) as [q_emb|]; simpl; [|done].
  destruct (coll_query coll q_emb k) as [res|]; simpl; [|done].
  destruct (first_item (default [[]] (documents res))); simpl; [|done].
  destruct (first_item (default [[]] (metadatas res))); simpl; [|done].
  destruct (first_item (default [[]] (distances res))); simpl; [|done].
  intros [= <-]. by eexists.
Qed.

Lemma graph_run_knowledge w q k sty temp :
  ¬ has_keyword q →
  match retriever_node w (routed q k sty temp) with
  | Raise e => graph_run w (initial_state q k sty temp) = Raise e
  | Ok st =>
      ∃ ctxs,
        st = retrieved q k sty temp ctxs
        ∧ match answer_with_citations (llm_env w) (llm_client w) q ctxs temp
                  768 (Some (default "detailed"
                               (style (initial_state q k sty temp)))) with
          | Raise e =>
              compose_node w st = Raise e
              ∧ graph_run w (initial_state q k sty temp) = Raise e
          | Ok ans =>
              graph_run w (initial_state q k sty temp)
              = Ok (knowledge_path, knowledge_final q k sty temp ctxs ans)
          end
  end.
Proof.
  intros Hkw. pose proof (retriever_routed w q k sty temp) as Hret.
  unfold graph_run, recursion_limit. rewrite run_from_step.
  change (node_fn w Router (initial_state q k sty temp))
    with (Ok (routed q k sty temp) : result AgentState).
  change (Ok (routed q k sty temp) ≫= ?f) with (f (routed q k sty temp)).
  cbv beta.
  replace (edge Router (routed q k sty temp)) with (Ok (Goto Retriever) : result target)
    by (by rewrite (routed_knowledge _ _ _ _ Hkw)).
  change (Ok (Goto Retriever) ≫= ?f) with (f (Goto Retriever)). cbv beta iota.
  rewrite run_from_step.
  change (node_fn w Retriever ?st) with (retriever_node w st).
  destruct (retriever_node w (routed q k sty temp)) as [st|e]; [|done].
  destruct (Hret st Hkw eq_refl) as [ctxs ->]. exists ctxs. split; [done|].
  simpl. unfold compose_node. simpl.
  destruct (answer_with_citations _ _ _ _ _ _ _) as [ans|e]; simpl; done.
Qed.

(** ** The grounding pattern *)

Lemma denote_chr_seq p r prev s1 rest g g' :
  Re.denote (Re.Seq (Re.Chr p) r) prev s1 rest g g'
  ↔ ∃ c b, s1 = c :: b ∧ p c = true ∧ Re.denote r (Some c) b rest g g'.
Proof.
  simpl. split.
  - intros (a & b & gm & -> & (c & -> & Hc & ->) & Hr). by exists c, b.
  - intros (c & b & -> & Hc & Hr). exists [c], b, g. split_and!; eauto.
Qed.

Lemma denote_plus_seq gr p r prev s1 rest g g' :
  Re.denote (Re.Seq (Re.Plus gr p) r) prev s1 rest g g'
  ↔ ∃ a b, s1 = a ++ b ∧ a ≠ [] ∧ forallb p a = true
           ∧ Re.denote r (Re.last_char prev a) b rest g g'.
Proof.
  simpl. split.
  - intros (a & b & gm & -> & (Hne & Hall & ->) & Hr). by exists a, b.
  - intros (a & b & -> & Hne & Hall & Hr). by exists a, b, g.
Qed.

Lemma denote_grounded prev s1 rest g g' :
  Re.denote grounded_re prev s1 rest g g'
  ↔ g' = g
    ∧ ∃ tok page,
        s1 = "[" ++ tok ++ " p" ++ page ++ "]"
        ∧ tok ≠ [] ∧ forallb not_rbracket tok = true
        ∧ page ≠ [] ∧ forallb Chars.is_digit page = true.
Proof.
  unfold grounded_re, Re.chr.
  rewrite denote_chr_seq.
  setoid_rewrite denote_plus_seq.
  setoid_rewrite denote_chr_seq.
  setoid_rewrite denote_chr_seq.
  setoid_rewrite denote_plus_seq.
  cbn [Re.denote]. split.
  - intros (c1 & b1 & -> & <-%N.eqb_eq & tok & b2 & -> & Htok & Hall
            & c2 & b3 & -> & <-%N.eqb_eq & c3 & b4 & -> & <-%N.eqb_eq
            & page & b5 & -> & Hpage & Hdig & c4 & -> & <-%N.eqb_eq & ->).
    split; [done|]. by exists tok, page.
  - intros (-> & tok & page & -> & Htok & Hall & Hpage & Hdig).
    exists Chars.lbracket, (tok ++ " p" ++ page ++ "]").
    split_and!; [done|done|].
    exists tok, (" p" ++ page ++ "]").
    split_and!; [done|done|done|].
    exists 0x20%N, ("p" ++ page ++ "]").
    split_and!; [done|done|].
    exists 0x70%N, (page ++ "]").
    split_and!; [done|done|].
    exists page, "]". split_and!; [done|done|done|].
    by exists Chars.rbracket.
Qed.

Lemma check_grounded_spec (ans : str) :
  check_grounded ans = true ↔ has_citation Chars.is_digit ans.
Proof.
  unfold check_grounded, has_citation. rewrite bool_decide_eq_true. split.
  - intros [m Hm]. unfold Re.search in Hm.
    apply search_from_sound in Hm as (pre & s1 & s2 & g' & Hans & Hd & _ & _).
    apply denote_grounded in Hd as (_ & tok & page & -> & Htok & Hall & Hpage & Hdig).
    exists ("[" ++ tok ++ " p" ++ page ++ "]"). split.
    + by exists tok, page.
    + by exists pre, s2.
  - intros (m & (tok & page & -> & Htok & Hall & Hpage & Hdig) & pre & post & ->).
    unfold Re.search.
    apply (search_from_complete _ _ _ _ _ _ ∅).
    apply denote_grounded. split; [done|]. by exists tok, page.
Qed.

(** The ten digits 0 to 9 are in the class [\d]. *)
Lemma ascii_digit_is_digit (c : char) :
  is_ascii_digit c = true → Chars.is_digit c = true.
Proof.
  unfold is_ascii_digit, Chars.is_digit, Chars.in_ranges, Chars.decimal_ranges.
  cbn [existsb]. by intros ->.
Qed.

Lemma has_citation_mono (d1 d2 : char → bool) (ans : str) :
  (∀ c, d1 c = true → d2 c = true) →
  has_citation d1 ans → has_citation d2 ans.
Proof.
  intros Hd (m & (tok & page & -> & Htok & Hall & Hpage & Hdig) & Hsub).
  exists ("[" ++ tok ++ " p" ++ page ++ "]"). split; [|done].
  exists tok, page. split_and!; try done.
  apply forallb_forall. intros c Hc.
  apply Hd. by eapply forallb_forall in Hdig.
Qed.

(** An answer with a citation holds a character of the digit class. *)
Lemma has_citation_digit (digit : char → bool) (ans : str) :
  has_citation digit ans → existsb digit ans = true.
Proof.
  intros (m & (tok & page & -> & _ & _ & Hpage & Hdig) & pre & post & ->).
  destruct page as [|d page]; [done|]. simpl in Hdig.
  apply andb_true_iff in Hdig as [Hd _].
  apply existsb_exists. exists d. split; [|done].
  apply in_or_app. right. apply in_or_app. left.
  apply in_or_app. right. apply in_or_app. right.
  apply in_or_app. right. apply in_or_app. left. by left.
Qed.

(** * The claims *)

(** C1. On the query [pause 'Garlic Bread'] the extractor proposes
    [pause_item], but the item it captures is [Garlic]: the lazy repetition
    of the item pattern stops at the first word boundary, so the quoted
    two-word name is not captured in full. *)
Theorem extract_action_quoted_garlic_bread :
  extract_action "pause 'Garlic Bread'"
  = Ok (<["item" := "Garlic"]>
          (<["type" := "pause_item"]> (base_proposal "pause 'Garlic Bread'")))
  ∧ (extract_action "pause 'Garlic Bread'" ≫= λ p, Ok (p !! "item"))
    ≠ Ok (Some "Garlic Bread").
Proof. split; [reflexivity | by vm_compute]. Qed.

(** C9. [resume] is given the proposal type of [unpause]: on
    [resume Cheesecake] the extractor proposes [unpause_item] for the item
    [Cheesecake], the same type as on [unpause Cheesecake]. *)
Theorem extract_action_resume_cheesecake :
  extract_action "resume Cheesecake"
  = Ok (<["item" := "Cheesecake"]>
          (<["type" := "unpause_item"]> (base_proposal "resume Cheesecake")))
  ∧ (proposed_type <$> extract_action "resume Cheesecake")
    = (proposed_type <$> extract_action "unpause Cheesecake").
Proof. split; reflexivity. Qed.

(** C3. The router sets the intent to [action] exactly when the lower-cased
    query contains one of the six keywords as a substring and to [knowledge]
    exactly when it contains none; as a node it always returns a state. *)
Theorem router_intent_spec (w : World) (st : AgentState) :
  (intent (router_node st) = Some "action"
   ↔ has_keyword (default [] (query st)))
  ∧ (intent (router_node st) = Some "knowledge"
     ↔ ¬ has_keyword (default [] (query st)))
  ∧ node_fn w Router st = Ok (router_node st)
  ∧ action_keywords
    = ["pause"; "unpause"; "resume"; "update hours"; "change hours"; "set hours"].
Proof.
  split_and!; [| |done|done]; rewrite <-keyword_test; unfold router_node;
    cbn [intent set_log set_intent];
    destruct (existsb _ action_keywords); split; done.
Qed.

(** C4. A run either ends in a state holding [query], [intent], [answer] and
    [log] together with the keys of exactly one branch ([contexts] on the
    knowledge branch, [proposed_action] on the action branch), or it has no
    final state: it is then a knowledge run in which the retriever node or,
    after it, the compose node raised. *)
Theorem final_state_shape (w : World) (q : str) (k : Z)
    (sty : option str) (temp : Q) :
  match invoke_graph w q k sty temp with
  | Ok st => final_state_ok st
  | Raise e => ¬ has_keyword q ∧ knowledge_run_raises w q k sty temp e
  end.
Proof.
  unfold invoke_graph, graph_invoke, knowledge_run_raises.
  destruct (existsb (λ kw, Str.contains (Str.lower q) kw) action_keywords)
    eqn:Htest.
  - apply keyword_test in Htest.
    destruct (graph_run_action w q k sty temp Htest) as (p & _ & _ & _ & ->).
    unfold final_state_ok. simpl. split_and!; eauto.
  - assert (¬ has_keyword q) as Hno.
    { intros H%keyword_test. congruence. }
    pose proof (graph_run_knowledge w q k sty temp Hno) as Hrun.
    destruct (retriever_node w (routed q k sty temp)) as [st2|e].
    + destruct Hrun as (ctxs & -> & Hrun).
      destruct (answer_with_citations _ _ _ _ _ _ _) as [ans|e].
      * rewrite Hrun. unfold final_state_ok. simpl. split_and!; eauto.
      * destruct Hrun as [Hcompose ->]. simpl. eauto.
    + rewrite Hrun. simpl. eauto.
Qed.

(** C2. On [pause the garlic bread] with [top_k = 4] every run ends with the
    intent [action], the proposal type [pause_item] and an answer starting
    with the confirmation sentence, but the proposed item is [the], which
    does not contain [garlic bread]. *)
Theorem pipeline_pause_the_garlic_bread (w : World) :
  ∃ st,
    invoke_graph w "pause the garlic bread" 4 None default_temperature = Ok st
    ∧ intent st = Some "action"
    ∧ proposal_field "type" st = Some "pause_item"
    ∧ proposal_field "item" st = Some "the"
    ∧ Str.contains "the" "garlic bread" = false
    ∧ (∃ rest, answer st
               = Some ("I identified an action request: pause_item." ++ rest)).
Proof.
  assert (has_keyword "pause the garlic bread") as Hkw.
  { by apply keyword_test. }
  destruct (graph_run_action w _ 4 None default_temperature Hkw)
    as (p & Hp & _ & _ & Hrun).
  assert (extract_action "pause the garlic bread"
          = Ok (<["item" := "the"]>
                  (<["type" := "pause_item"]>
                     (base_proposal "pause the garlic bread")))) as Hex
    by reflexivity.
  rewrite Hex in Hp. injection Hp as <-.
  eexists. unfold invoke_graph, graph_invoke. rewrite Hrun.
  split; [reflexivity|]. split_and!; try reflexivity.
  by exists " Review the proposed parameters below and approve to execute.".
Qed.

(** ** The decision trace *)

Lemma entry_of_label (n : node) (rest : str) :
  entry_of n (node_label n ++ rest).
Proof. apply startswith_spec. by exists rest. Qed.

Lemma node_appends (w : World) (n : node) (st : AgentState) :
  match node_fn w n st with
  | Ok st' => ∃ e, entry_of n e ∧ log st' = Some (default [] (log st) ++ [e])
  | Raise _ => True
  end.
Proof.
  destruct n; simpl.
  - eexists. split; [|reflexivity].
    apply (entry_of_label Router (" " ++ _)).
  - unfold retriever_node, get_query.
    destruct (query st); simpl; [|done].
    destruct (get_embedder w) as [model|]; simpl; [|done].
    destruct (get_collection w) as [coll|]; simpl; [|done].
    destruct (encode model _) as [q_emb|]; simpl; [|done].
    destruct (coll_query coll q_emb _) as [res|]; simpl; [|done].
    destruct (first_item (default [[]] (documents res))); simpl; [|done].
    destruct (first_item (default [[]] (metadatas res))); simpl; [|done].
    destruct (first_item (default [[]] (distances res))); simpl; [|done].
    eexists. split; [|reflexivity]. apply (entry_of_label Retriever " Compose").
  - unfold compose_node, get_query.
    destruct (query st); simpl; [|done].
    destruct (answer_with_citations _ _ _ _ _ _ _); simpl; [|done].
    eexists. split; [|reflexivity]. apply (entry_of_label Compose " Critic").
  - eexists. split; [|reflexivity].
    apply (entry_of_label Critic (" END (grounded=" ++ _)).
  - unfold action_node.
    destruct (extract_action _); simpl; [|done].
    eexists. split; [|reflexivity].
    apply (entry_of_label ActionN (" END (proposed=" ++ _)).
Qed.

(** C5. Every node that returns appends exactly one line, starting with its
    own label, to the end of the log. A run's log therefore lists the nodes
    that ran, in order: it ends with the [Critic] line on the knowledge
    branch and with the [Action] line on the action branch, and never holds
    both a [Critic] line and an [Action] line. A run without a final log is
    a knowledge run in which the retriever node or the compose node
    raised. *)
Theorem log_trace (w : World) (q : str) (k : Z) (sty : option str)
    (temp : Q) :
  (∀ n st,
     match node_fn w n st with
     | Ok st' => ∃ e, entry_of n e ∧ log st' = Some (default [] (log st) ++ [e])
     | Raise _ => True
     end)
  ∧ match graph_run w (initial_state q k sty temp) with
    | Ok (ns, st) =>
        ∃ lg, log st = Some lg
          ∧ Forall2 entry_of ns lg
          ∧ ((intent st = Some "knowledge"
              ∧ ∃ e, last lg = Some e ∧ entry_of Critic e)
             ∨ (intent st = Some "action"
                ∧ ∃ e, last lg = Some e ∧ entry_of ActionN e))
          ∧ ¬ ((∃ e, e ∈ lg ∧ entry_of Critic e)
               ∧ (∃ e, e ∈ lg ∧ entry_of ActionN e))
    | Raise e => ¬ has_keyword q ∧ knowledge_run_raises w q k sty temp e
    end.
Proof.
  split; [intros n st; apply node_appends|].
  unfold knowledge_run_raises.
  destruct (existsb (λ kw, Str.contains (Str.lower q) kw) action_keywords)
    eqn:Htest.
  - apply keyword_test in Htest.
    destruct (graph_run_action w q k sty temp Htest) as (p & _ & _ & _ & ->).
    eexists. split; [reflexivity|]. split_and!.
    + by repeat constructor.
    + right. split; [done|]. eexists. split; [reflexivity|].
      apply (entry_of_label ActionN (" END (proposed=" ++ _)).
    + intros [(e & He & Hcritic) _].
      apply elem_of_cons in He as [->|He]; [by vm_compute in Hcritic|].
      apply elem_of_cons in He as [->|He]; [by vm_compute in Hcritic|].
      by apply elem_of_nil in He.
  - assert (¬ has_keyword q) as Hno.
    { intros H%keyword_test. congruence. }
    pose proof (graph_run_knowledge w q k sty temp Hno) as Hrun.
    destruct (retriever_node w (routed q k sty temp)) as [st2|e].
    + destruct Hrun as (ctxs & -> & Hrun).
      destruct (answer_with_citations _ _ _ _ _ _ _) as [ans|e].
      * rewrite Hrun.
        eexists. split; [reflexivity|]. split_and!.
        -- by repeat constructor.
        -- left. split; [done|]. eexists. split; [reflexivity|].
           apply (entry_of_label Critic (" END (grounded=" ++ _)).
        -- intros [_ (e & He & Haction)].
           repeat (apply elem_of_cons in He as [->|He];
                   [by vm_compute in Haction|]).
           by apply elem_of_nil in He.
      * destruct Hrun as [Hcompose ->]. eauto.
    + rewrite Hrun. eauto.
Qed.

(** C6, counterexample. The answer [[Doc pN]] with the Arabic-Indic digit
    three as [N] passes the grounding test, although it holds no citation
    whose page is written with the digits 0 to 9: the class [\d] accepts
    every decimal digit of Unicode. *)
Lemma check_grounded_arabic_digit :
  check_grounded "[Doc p٣]" = true
  ∧ ¬ has_citation is_ascii_digit "[Doc p٣]".
Proof.
  split; [by vm_compute|]. intros H%has_citation_digit. by vm_compute in H.
Qed.

(** C6, amended. [check_grounded] is true exactly on the answers that contain
    a citation marker: an opening bracket, a non-empty token free of closing
    brackets, a space, the letter p, one or more decimal digits of any script
    (the class [\d]), a closing bracket. In particular it is true on every
    answer with a marker whose page is written with the digits 0 to 9, on
    the cited sample sentence, and false on the uncited one; the critic node
    leaves the answer as it found it. *)
Theorem check_grounded_correct (ans : str) (st : AgentState) :
  (check_grounded ans = true ↔ has_citation Chars.is_digit ans)
  ∧ (check_grounded ans = false ↔ ¬ has_citation Chars.is_digit ans)
  ∧ (has_citation is_ascii_digit ans → check_grounded ans = true)
  ∧ check_grounded "See [Finance_Guide p3] for details." = true
  ∧ check_grounded "No citation here." = false
  ∧ answer (critic_node st) = answer st.
Proof.
  split_and!; [apply check_grounded_spec | | | by vm_compute | by vm_compute | done].
  - rewrite <-check_grounded_spec. by destruct (check_grounded ans).
  - intros H. apply check_grounded_spec.
    eapply has_citation_mono; [apply ascii_digit_is_digit | done].
Qed.

(** C7, counterexample. With a client configured, a retrieved record that was
    stored without metadata makes [answer_with_citations] raise, and the run
    of the graph raises with it; so does a client constructor that
    raises. *)
Lemma synthesis_raises :
  answer_with_citations canned_llm None "what is the refund policy"
    [bare_record] default_temperature 768 None
  = Raise (none_has_no "get")
  ∧ invoke_graph bare_world "what is the refund policy" 4 None
      default_temperature
    = Raise (none_has_no "get")
  ∧ answer_with_citations broken_llm None "what is the refund policy" []
      default_temperature 768 None
    = Raise (BackendError "invalid client configuration").
Proof. split_and!; reflexivity. Qed.

(** C7, amended. [answer_with_citations] raises only before the call to the
    backend: when the client constructor raises, and when a client is there
    and a passage has [None] as its metadata. Otherwise it returns a string:
    the fixed [LLM disabled] sentence when no client is configured, and the
    [LLM error] sentence, which embeds the text of the exception, when the
    call to the backend raises. Without an API key, or without the [Groq]
    class, no client is configured. *)
Theorem synthesis_boundary (env : LlmEnv) (cached : option Client)
    (q : str) (ctxs : list Context) (temp : Q) (max_tokens : Z)
    (sty : option str) :
  match get_llm_client env cached with
  | Raise e =>
      answer_with_citations env cached q ctxs temp max_tokens sty = Raise e
      ∧ cached = None
      ∧ ∃ key make, GROQ_API_KEY env = Some key ∧ Groq env = Some make
                    ∧ make key = Raise e
  | Ok None =>
      answer_with_citations env cached q ctxs temp max_tokens sty
      = Ok LLM_DISABLED
  | Ok (Some client) =>
      match format_context_block ctxs with
      | Raise e =>
          answer_with_citations env cached q ctxs temp max_tokens sty = Raise e
          ∧ e = none_has_no "get"
          ∧ Exists (λ c, metadata c = None) ctxs
      | Ok block =>
          ∃ s,
            answer_with_citations env cached q ctxs temp max_tokens sty = Ok s
            ∧ match chat_completions_create client
                      (chat_request env (build_prompt q block) temp max_tokens
                         sty) with
              | Raise e => s = llm_error e ∧ is_substring (exn_str e) s
              | Ok _ => True
              end
      end
  end
  ∧ get_llm_client
      {| GROQ_API_KEY := None; GROQ_MODEL := GROQ_MODEL env; Groq := Groq env |}
      None = Ok None
  ∧ get_llm_client
      {| GROQ_API_KEY := GROQ_API_KEY env; GROQ_MODEL := GROQ_MODEL env;
         Groq := None |}
      None = Ok None.
Proof.
  split_and!.
  - pose proof (answer_with_citations_cases env cached q ctxs temp max_tokens
                  sty) as Hans.
    pose proof (get_llm_client_cases env cached) as Hclient.
    destruct (get_llm_client env cached) as [[client|]|e]; [|done|].
    + pose proof (format_context_block_cases ctxs) as Hblock.
      destruct (format_context_block ctxs) as [block|e].
      * eexists. split; [exact Hans|].
        destruct (chat_completions_create client _) as [resp|e]; [done|].
        split; [done|].
        by exists "[LLM error] ", ". Proceed with retrieved sources below.".
      * by destruct Hblock.
    + destruct Hclient as (-> & key & make & ? & _ & ? & ?).
      split_and!; [done|done|]. by exists key, make.
  - done.
  - simpl. by destruct (GROQ_API_KEY env).
Qed.

(** C8. Two completed runs on the same query, top-k, style and temperature
    agree on the length of the log, on the intent and on the type of the
    proposed action, whatever the two worlds they ran in. *)
Theorem runs_agree (w1 w2 : World) (q : str) (k : Z) (sty : option str)
    (temp : Q) (st1 st2 : AgentState) :
  invoke_graph w1 q k sty temp = Ok st1 →
  invoke_graph w2 q k sty temp = Ok st2 →
  length (default [] (log st1)) = length (default [] (log st2))
  ∧ intent st1 = intent st2
  ∧ proposal_field "type" st1 = proposal_field "type" st2.
Proof.
  unfold invoke_graph, graph_invoke. intros H1 H2.
  destruct (existsb (λ kw, Str.contains (Str.lower q) kw) action_keywords)
    eqn:Htest.
  - apply keyword_test in Htest.
    destruct (graph_run_action w1 q k sty temp Htest) as (p1 & Hp1 & _ & _ & R1).
    destruct (graph_run_action w2 q k sty temp Htest) as (p2 & Hp2 & _ & _ & R2).
    rewrite R1 in H1. rewrite R2 in H2. simpl in H1, H2.
    injection H1 as <-. injection H2 as <-.
    assert (p1 = p2) as -> by congruence. done.
  - assert (¬ has_keyword q) as Hno.
    { intros H%keyword_test. congruence. }
    pose proof (graph_run_knowledge w1 q k sty temp Hno) as R1.
    pose proof (graph_run_knowledge w2 q k sty temp Hno) as R2.
    destruct (retriever_node w1 _); [|by rewrite R1 in H1].
    destruct (retriever_node w2 _); [|by rewrite R2 in H2].
    destruct R1 as (? & _ & R1). destruct R2 as (? & _ & R2).
    destruct (answer_with_citations (llm_env w1) _ _ _ _ _ _);
      [|destruct R1 as [_ R1]; by rewrite R1 in H1].
    destruct (answer_with_citations (llm_env w2) _ _ _ _ _ _);
      [|destruct R2 as [_ R2]; by rewrite R2 in H2].
    rewrite R1 in H1. rewrite R2 in H2. simpl in H1, H2.
    injection H1 as <-. injection H2 as <-. done.
Qed.

Lemma runs_agree_witness :
  ∃ st1 st2,
    invoke_graph offline_world "what is the refund policy" 4 None
      default_temperature = Ok st1
    ∧ invoke_graph canned_world "what is the refund policy" 4 None
        default_temperature = Ok st2
    ∧ length (default [] (log st1)) = length (default [] (log st2))
    ∧ intent st1 = intent st2
    ∧ proposal_field "type" st1 = proposal_field "type" st2.
Proof.
  eexists _, _. split; [reflexivity|]. split; [reflexivity|].
  apply (runs_agree offline_world canned_world "what is the refund policy" 4
           None default_temperature); reflexivity.
Defined.

(** C10. A query whose lower-cased text contains none of the router's
    keywords runs the knowledge path: if the run completes, its intent is
    [knowledge] and it has no proposed action, and otherwise the retriever
    node or the compose node raised. This holds for the query [please update
    opening hours for Friday to 9-5] although the extractor's hours pattern
    matches it and would propose [update_hours]. *)
Theorem unrouted_action_is_knowledge :
  (∀ (w : World) (q : str) (k : Z) (sty : option str) (temp : Q),
     ¬ has_keyword q →
     match graph_run w (initial_state q k sty temp) with
     | Ok (ns, st) =>
         ns = knowledge_path ∧ (ActionN ∉ ns)
         ∧ intent st = Some "knowledge" ∧ proposed_action st = None
     | Raise e => knowledge_run_raises w q k sty temp e
     end)
  ∧ ¬ has_keyword "please update opening hours for Friday to 9-5"
  ∧ is_Some (Re.search action_hours_re
               "please update opening hours for Friday to 9-5")
  ∧ (proposed_type
       <$> extract_action "please update opening hours for Friday to 9-5")
    = Ok "update_hours".
Proof.
  split_and!.
  - intros w q k sty temp Hno. unfold knowledge_run_raises.
    pose proof (graph_run_knowledge w q k sty temp Hno) as Hrun.
    destruct (retriever_node w (routed q k sty temp)) as [st2|e].
    + destruct Hrun as (ctxs & -> & Hrun).
      destruct (answer_with_citations _ _ _ _ _ _ _) as [ans|e].
      * rewrite Hrun. split_and!; try done.
        unfold knowledge_path. intros Hin.
        repeat (apply elem_of_cons in Hin as [?|Hin]; [done|]).
        by apply elem_of_nil in Hin.
      * destruct Hrun as [Hcompose ->]. eauto.
    + rewrite Hrun. eauto.
  - intros H%keyword_test. by vm_compute in H.
  - vm_compute. by eexists.
  - reflexivity.
Qed.

Lemma unrouted_action_is_knowledge_witness :
  ¬ has_keyword "please update opening hours for Friday to 9-5"
  ∧ match graph_run offline_world
            (initial_state "please update opening hours for Friday to 9-5"
               4 None default_temperature) with
    | Ok (ns, st) =>
        ns = knowledge_path ∧ (ActionN ∉ ns)
        ∧ intent st = Some "knowledge" ∧ proposed_action st = None
    | Raise e =>
        knowledge_run_raises offline_world
          "please update opening hours for Friday to 9-5" 4 None
          default_temperature e
    end.
Proof.
  split.
  - exact (proj1 (proj2 unrouted_action_is_knowledge)).
  - apply (proj1 unrouted_action_is_knowledge).
    exact (proj1 (proj2 unrouted_action_is_knowledge)).
Defined.
